(** * gatsby-plugin-sharp: image-data.ts

    A shallow embedding of
    [packages/gatsby-plugin-sharp/src/image-data.ts]
    ([getImageMetadata], [getOutputAspectRatio], [generateImageData])
    and the properties of its planning and assembly logic.

    Conventions of the embedding.

    - A JavaScript [number] is a rational extended with [NaN] and the
      two infinities ([number] below).  A division rounds its quotient
      to binary64 as IEEE 754 has it (nearest, ties to even, overflow
      to an infinity, gradual underflow); [Math.round] is exact.  The
      negative zero is idealised away.  Truthiness, [===], division by
      zero and [undefined] coerced to [NaN] follow ECMAScript.
    - An optional property ([width?: number]) is an [option]; [None]
      is [undefined].
    - An [async] function is a computation over the process state that
      either returns or throws ([Async]); an [await] is a sequencing
      point.  The process state keeps the module-level [metadataCache],
      [process.env.NODE_ENV], and a trace of the probes made on files.
      A call runs to completion before the next one starts: calls
      interleaved at their [await]s are not modelled.
    - Functions imported from modules outside this file
      ([./utils], [.], [./safe-sharp], [./plugin-options]) are fields of
      the record [Imports].  The [reporter] and [cache] handles are only
      forwarded to them and are left out. *)

From Stdlib Require Import QArith Qround Lqa Ascii String.
From stdpp Require Import gmap strings list.

Local Open Scope string_scope.

(** ** JavaScript numbers *)

Inductive number : Type :=
  | Fin (q : Q)
  | NaN
  | PosInf
  | NegInf.

Definition num (z : Z) : number := Fin (inject_Z z).

(** [a === b] on numbers: [NaN] differs from everything, itself
    included. *)
Definition strict_eq (a b : number) : bool :=
  match a, b with
  | Fin x, Fin y => Qeq_bool x y
  | PosInf, PosInf => true
  | NegInf, NegInf => true
  | _, _ => false
  end.

(** ToBoolean on a number: [0] and [NaN] are falsy. *)
Definition truthy (n : number) : bool :=
  match n with
  | Fin q => negb (Qeq_bool q 0)
  | NaN => false
  | PosInf | NegInf => true
  end.

(** [n / d] rounded to the nearest integer, ties to the even one, for
    [0 <= n] and [0 < d]. *)
Definition round_half_even (n d : Z) : Z :=
  let q := (n / d)%Z in
  match (2 * (n mod d) ?= d)%Z with
  | Lt => q
  | Gt => (q + 1)%Z
  | Eq => if Z.even q then q else (q + 1)%Z
  end.

(** The fraction [(n / d) / 2 ^ e]. *)
Definition scale2 (n d e : Z) : Z * Z :=
  if (0 <=? e)%Z then (n, (d * 2 ^ e)%Z) else ((n * 2 ^ (- e))%Z, d).

(** The binary64 number nearest to the positive fraction [n / d]
    (IEEE 754 round to nearest, ties to even): a significand of at most
    53 bits times [2 ^ e] with [e >= -1074], subnormals included;
    [None] when the rounded value reaches [2 ^ 1024] (overflow). *)
Definition binary64_pos (n d : positive) : option Q :=
  let k := (Z.log2 (Zpos n) - Z.log2 (Zpos d))%Z in
  let '(n1, d1) := scale2 (Zpos n) (Zpos d) k in
  let ex := if (d1 <=? n1)%Z then k else (k - 1)%Z in
  let e := Z.max (ex - 52) (-1074) in
  let '(n2, d2) := scale2 (Zpos n) (Zpos d) e in
  let m := round_half_even n2 d2 in
  if (0 <=? e)%Z then
    if (2 ^ 1024 <=? m * 2 ^ e)%Z then None
    else Some (inject_Z (m * 2 ^ e))
  else Some (Qred (m # Z.to_pos (2 ^ (- e)))).

(** The result of an arithmetic operation whose exact value is [q]:
    [q] rounded to binary64, an infinity on overflow. *)
Definition binary64 (q : Q) : number :=
  match Qnum (Qred q) with
  | Z0 => Fin 0
  | Zpos n =>
      match binary64_pos n (Qden (Qred q)) with
      | Some v => Fin v
      | None => PosInf
      end
  | Zneg n =>
      match binary64_pos n (Qden (Qred q)) with
      | Some v => Fin (- v)
      | None => NegInf
      end
  end.
Arguments binary64 : simpl never.

(** [a / b]: the quotient rounded to binary64. *)
Definition num_div (a b : number) : number :=
  match a, b with
  | NaN, _ | _, NaN => NaN
  | Fin x, Fin y =>
      if Qeq_bool y 0 then
        match (x ?= 0)%Q with
        | Eq => NaN
        | Gt => PosInf
        | Lt => NegInf
        end
      else binary64 (x / y)
  | Fin _, (PosInf | NegInf) => Fin 0
  | PosInf, Fin y => if Qle_bool 0 y then PosInf else NegInf
  | NegInf, Fin y => if Qle_bool 0 y then NegInf else PosInf
  | (PosInf | NegInf), (PosInf | NegInf) => NaN
  end.

(** [Math.round]: the nearest integer, ties towards +infinity, that is
    [floor (x + 1/2)]; [NaN] and the infinities are returned as they
    are. *)
Definition Math_round (n : number) : number :=
  match n with
  | Fin q => Fin (inject_Z (Qfloor (q + (1 # 2))))
  | _ => n
  end.

(** ToNumber on a possibly [undefined] number. *)
Definition ToNumber (o : option number) : number := default NaN o.

(** ToBoolean on a possibly [undefined] number. *)
Definition truthy_opt (o : option number) : bool :=
  match o with
  | Some n => truthy n
  | None => false
  end.

(** [a || b] on possibly [undefined] numbers. *)
Definition or_num (a b : option number) : option number :=
  if truthy_opt a then a else b.

(** ToBoolean on a string: only the empty string is falsy. *)
Definition truthy_str (s : string) : bool :=
  match s with
  | EmptyString => false
  | String _ _ => true
  end.

Definition truthy_ostr (o : option string) : bool :=
  match o with
  | Some s => truthy_str s
  | None => false
  end.

(** ** Types of the module *)

Inductive Layout : Type := LFixed | LFluid | LConstrained.
Inductive PlaceholderKind : Type :=
  PTracedSVG | PDominantColor | PBlurred | PNone.
Inductive Fit : Type :=
  FitContain | FitCover | FitFill | FitInside | FitOutside.

Global Instance Layout_eq_dec : EqDecision Layout.
Proof. solve_decision. Defined.
Global Instance PlaceholderKind_eq_dec : EqDecision PlaceholderKind.
Proof. solve_decision. Defined.
Global Instance Fit_eq_dec : EqDecision Fit.
Proof. solve_decision. Defined.

(** [Record<string, unknown>] of [tracedSVGOptions]: only forwarded. *)
Definition TraceOptions : Type := list (string * string).

(** [ISharpGatsbyImageArgs].  The last five fields are the keys this
    file reads through the index signature [[key: string]: unknown],
    at the types their uses expect. *)
Record ISharpGatsbyImageArgs : Type := {
  args_layout : option Layout;
  args_placeholder : option PlaceholderKind;
  args_tracedSVGOptions : option TraceOptions;
  args_width : option number;
  args_height : option number;
  args_maxWidth : option number;
  args_maxHeight : option number;
  args_fit : option Fit;
  args_toFormat : option string;
  args_sizes : option string;
  args_webP : bool;
  args_base64Width : option number;
  args_base64Height : option number
}.

(** [FileNode]: [absolutePath] and [internal.contentDigest]. *)
Record FileNode : Type := {
  absolutePath : option string;
  contentDigest : string
}.

(** [IImageMetadata]. *)
Record IImageMetadata : Type := {
  md_width : number;
  md_height : number;
  md_format : string;
  md_density : option string;
  md_dominantColor : option string
}.

(** ** getOutputAspectRatio (lines 77-104) *)

Definition getOutputAspectRatio
    (args : ISharpGatsbyImageArgs) (metadata : IImageMetadata) : number :=
  let width := args_width args in
  let height := args_height args in
  let maxWidth := args_maxWidth args in
  let maxHeight := args_maxHeight args in
  let layout := default LFixed (args_layout args) in
  let fit := default FitCover (args_fit args) in
  if bool_decide (fit = FitInside) || bool_decide (fit = FitOutside) then
    num_div (md_width metadata) (md_height metadata)
  else if truthy_opt height && truthy_opt width
          && bool_decide (layout = LFixed) then
    num_div (ToNumber width) (ToNumber height)
  else if truthy_opt maxWidth && truthy_opt maxHeight
          && negb (bool_decide (layout = LFixed)) then
    num_div (ToNumber maxWidth) (ToNumber maxHeight)
  else
    num_div (md_width metadata) (md_height metadata).

(** ** Values exchanged with the imported functions *)

(** Result of [getImageSizeAsync]. *)
Record ImageSize : Type := {
  size_width : number;
  size_height : number;
  size_type : string
}.

(** Result of sharp's [pipeline.metadata()]. *)
Record SharpMetadata : Type := {
  sm_width : number;
  sm_height : number;
  sm_density : option string;
  sm_format : string
}.

Record RGB : Type := { rgb_r : number; rgb_g : number; rgb_b : number }.

(** Result of sharp's [pipeline.stats()]; [dominant] may be missing. *)
Record SharpStats : Type := { dominant : option RGB }.

(** The annotated type of [imageSizes] (lines 120-125). *)
Record ImageSizes : Type := {
  sizes : list number;
  presentationWidth : number;
  presentationHeight : number;
  aspectRatio : number
}.

(** One element of the array returned by [batchQueueImageResizing]. *)
Record EncodedImage : Type := {
  img_src : string;
  img_width : option number;
  img_height : option number;
  img_aspectRatio : option number;
  img_format : string
}.

(** [ISharpGatsbyImageData] of gatsby-plugin-image. *)
Record Fallback : Type := {
  fb_src : string;
  fb_srcSet : string;
  fb_sizes : string
}.

Record Source : Type := {
  source_srcSet : string;
  source_type : string;
  source_sizes : string
}.

Record Images : Type := { fallback : Fallback; sources : list Source }.

Record PlaceholderData : Type := { ph_fallback : string }.

Record ISharpGatsbyImageData : Type := {
  out_layout : Layout;
  out_width : option number;
  out_height : option number;
  out_backgroundColor : option string;
  out_placeholder : option PlaceholderData;
  out_images : Images
}.

(** ** Completions, process state and the [Async] monad *)

Inductive Error : Type :=
  | TypeError (msg : string)
  | Rejected (reason : string).

Inductive Completion (A : Type) : Type :=
  | Return (a : A)
  | Throw (e : Error).
Arguments Return {A} a.
Arguments Throw {A} e.

(** The functions this file imports. *)
Record Imports : Type := {
  Transform : Type;
  getImageSizeAsync : FileNode → Completion ImageSize;
  pipeline_metadata : FileNode → Completion SharpMetadata;
  pipeline_stats : FileNode → Completion SharpStats;
  rgbToHex : number → number → number → string;
  calculateImageSizes :
    FileNode → Layout → ISharpGatsbyImageArgs → IImageMetadata →
    Completion ImageSizes;
  createTransformObject : ISharpGatsbyImageArgs → Transform;
  batchQueueImageResizing :
    FileNode → list Transform → Completion (list EncodedImage);
  getSrcSet : list EncodedImage → string;
  getSizes : number → string;
  base64 : FileNode → ISharpGatsbyImageArgs → Completion string;
  traceSVG :
    FileNode → TraceOptions → ISharpGatsbyImageArgs → Completion string
}.

(** A probe made on a file. *)
Inductive Event : Type :=
  | EvImageSize (file : FileNode)
  | EvMetadata (file : FileNode)
  | EvStats (file : FileNode).

(** An object: a value with its identity.  Metadata records are never
    mutated once built, so the pair stands for the reference. *)
Record Obj (A : Type) : Type := { oid : nat; val : A }.
Arguments oid {A} o.
Arguments val {A} o.

Record Process : Type := {
  metadataCache : gmap string (Obj IImageMetadata);
  NODE_ENV : option string;
  next_oid : nat;
  probes : list Event
}.

Definition Async (A : Type) : Type := Process → Completion A * Process.

Global Instance Async_ret : MRet Async :=
  λ A (a : A) p, (Return a, p).

Global Instance Async_bind : MBind Async :=
  λ A B (k : A → Async B) (m : Async A) p,
    match m p with
    | (Return a, p') => k a p'
    | (Throw e, p') => (Throw e, p')
    end.

Definition throw {A : Type} (e : Error) : Async A := λ p, (Throw e, p).

(** A synchronous call of an imported function. *)
Definition call {A : Type} (c : Completion A) : Async A := λ p, (c, p).

(** An awaited probe: it is recorded, then it returns or rejects. *)
Definition probe {A : Type} (ev : Event) (c : Completion A) : Async A :=
  λ p, (c, {| metadataCache := metadataCache p; NODE_ENV := NODE_ENV p;
              next_oid := next_oid p; probes := probes p ++ [ev] |}).

(** An object literal: a fresh identity. *)
Definition new_object (v : IImageMetadata) : Async (Obj IImageMetadata) :=
  λ p, (Return {| oid := next_oid p; val := v |},
        {| metadataCache := metadataCache p; NODE_ENV := NODE_ENV p;
           next_oid := S (next_oid p); probes := probes p |}).

Definition cache_get (key : string) : Async (option (Obj IImageMetadata)) :=
  λ p, (Return (metadataCache p !! key), p).

Definition cache_set (key : string) (m : Obj IImageMetadata) : Async unit :=
  λ p, (Return tt,
        {| metadataCache := <[key := m]> (metadataCache p);
           NODE_ENV := NODE_ENV p; next_oid := next_oid p;
           probes := probes p |}).

Definition env_NODE_ENV : Async (option string) :=
  λ p, (Return (NODE_ENV p), p).

(** Property access on a possibly [undefined] object. *)
Definition member {A : Type} (o : option A) : Async A :=
  match o with
  | Some a => mret a
  | None => throw (TypeError "Cannot read properties of undefined")
  end.

(** [Array.prototype.findIndex]: [-1] when nothing matches. *)
Fixpoint findIndex_from {A : Type} (p : A → bool) (l : list A) (i : Z) : Z :=
  match l with
  | [] => (-1)%Z
  | x :: l' => if p x then i else findIndex_from p l' (i + 1)%Z
  end.

Definition findIndex {A : Type} (p : A → bool) (l : list A) : Z :=
  findIndex_from p l 0%Z.

(** [a[i]] on an array: [undefined] outside [0 .. length - 1]. *)
Definition array_get {A : Type} (l : list A) (i : Z) : option A :=
  if (i <? 0)%Z then None else l !! Z.to_nat i.

Section ImageData.

Context (I : Imports).

(** ** getImageMetadata (lines 35-61) *)

Definition getImageMetadata
    (file : FileNode) (getDominantColor : option bool)
    : Async (Obj IImageMetadata) :=
  if negb (default false getDominantColor) then
    sz ← probe (EvImageSize file) (getImageSizeAsync I file);
    new_object {| md_width := size_width sz; md_height := size_height sz;
                  md_format := size_type sz; md_density := None;
                  md_dominantColor := None |}
  else
    metadata ← cache_get (contentDigest file);
    env ← env_NODE_ENV;
    match metadata, negb (bool_decide (env = Some "test")) with
    | Some cached, true => mret cached
    | _, _ =>
        m ← probe (EvMetadata file) (pipeline_metadata I file);
        st ← probe (EvStats file) (pipeline_stats I file);
        let dominantColor :=
          match dominant st with
          | Some d => rgbToHex I (rgb_r d) (rgb_g d) (rgb_b d)
          | None => "#000000"
          end in
        metadata ← new_object
          {| md_width := sm_width m; md_height := sm_height m;
             md_format := sm_format m; md_density := sm_density m;
             md_dominantColor := Some dominantColor |};
        _ ← cache_set (contentDigest file) metadata;
        mret metadata
    end.

(** ** generateImageData (lines 106-244) *)

(** The object literal handed to [createTransformObject]
    (lines 135-140 and 178-183): [args] with [width], [height] and
    [toFormat] overridden. *)
Definition transformArgs
    (args : ISharpGatsbyImageArgs) (width height : number)
    (toFormat : string) : ISharpGatsbyImageArgs :=
  {| args_layout := args_layout args;
     args_placeholder := args_placeholder args;
     args_tracedSVGOptions := args_tracedSVGOptions args;
     args_width := Some width;
     args_height := Some height;
     args_maxWidth := args_maxWidth args;
     args_maxHeight := args_maxHeight args;
     args_fit := args_fit args;
     args_toFormat := Some toFormat;
     args_sizes := args_sizes args;
     args_webP := args_webP args;
     args_base64Width := args_base64Width args;
     args_base64Height := args_base64Height args |}.

(** [imageSizes.sizes.map(outputWidth => ...)] (lines 133-142, and again
    176-185 with [toFormat] forced to [webp]). *)
Definition transforms
    (args : ISharpGatsbyImageArgs) (imageSizes : ImageSizes)
    (toFormat : string) : list (Transform I) :=
  map (λ outputWidth,
         let width := Math_round outputWidth in
         let transform :=
           createTransformObject I
             (transformArgs args width
                (Math_round (num_div width (aspectRatio imageSizes)))
                toFormat) in
         transform)
      (sizes imageSizes).

(** The object literal handed to [base64] (line 204). *)
Definition base64Args (args : ISharpGatsbyImageArgs) : ISharpGatsbyImageArgs :=
  {| args_layout := args_layout args;
     args_placeholder := args_placeholder args;
     args_tracedSVGOptions := args_tracedSVGOptions args;
     args_width := args_base64Width args;
     args_height := args_base64Height args;
     args_maxWidth := args_maxWidth args;
     args_maxHeight := args_maxHeight args;
     args_fit := args_fit args;
     args_toFormat := args_toFormat args;
     args_sizes := args_sizes args;
     args_webP := args_webP args;
     args_base64Width := args_base64Width args;
     args_base64Height := args_base64Height args |}.

(** The [switch (layout)] of lines 227-241, on the primary image whose
    [aspectRatio] has been defaulted (line 225): the [width] and
    [height] assigned to [imageProps]. *)
Definition layoutDimensions
    (layout : Layout) (args : ISharpGatsbyImageArgs)
    (primaryImage : EncodedImage) (primaryAspectRatio : option number)
    : option number * option number :=
  match layout with
  | LFixed => (img_width primaryImage, img_height primaryImage)
  | LFluid =>
      (Some (num 1), Some (num_div (num 1) (ToNumber primaryAspectRatio)))
  | LConstrained =>
      let width :=
        or_num (args_maxWidth args)
               (or_num (img_width primaryImage) (Some (num 1))) in
      (width,
       Some (num_div (ToNumber (or_num width (Some (num 1))))
                     (ToNumber primaryAspectRatio)))
  end.

(** [images[primaryIndex]] with [primaryIndex] found by exact match on
    [presentationWidth] (lines 153-157): [undefined] when no size
    matches or the array is too short. *)
Definition primaryOf
    (imageSizes : ImageSizes) (images : list EncodedImage)
    : option EncodedImage :=
  let primaryIndex :=
    findIndex (λ size, strict_eq size (presentationWidth imageSizes))
              (sizes imageSizes) in
  array_get images primaryIndex.

Definition generateImageData
    (file : FileNode) (args : ISharpGatsbyImageArgs)
    : Async (option ISharpGatsbyImageData) :=
  let layout := default LFixed (args_layout args) in
  let placeholder := default PDominantColor (args_placeholder args) in
  let tracedSVGOptions := default [] (args_tracedSVGOptions args) in
  metadataObj ← getImageMetadata file
    (Some (bool_decide (placeholder = PDominantColor)));
  let metadata := val metadataObj in
  imageSizes ← call (calculateImageSizes I file layout args metadata);
  images ← call (batchQueueImageResizing I file
    (transforms args imageSizes
       (if truthy_ostr (args_toFormat args)
        then default "" (args_toFormat args) else md_format metadata)));
  let srcSet := getSrcSet I images in
  let sizes_attr :=
    if truthy_ostr (args_sizes args) then default "" (args_sizes args)
    else getSizes I (presentationWidth imageSizes) in
  let primaryImage := primaryOf imageSizes images in
  if bool_decide (length images = 0%nat) then mret None
  else
    primaryImage ← member primaryImage;
    let fallback_ :=
      {| fb_src := img_src primaryImage; fb_srcSet := srcSet;
         fb_sizes := sizes_attr |} in
    sources_ ←
      (if args_webP args then
         webpImages ← call (batchQueueImageResizing I file
                              (transforms args imageSizes "webp"));
         let webpSrcSet := getSrcSet I webpImages in
         mret [ {| source_srcSet := webpSrcSet;
                   source_type := "image/webp";
                   source_sizes := sizes_attr |} ]
       else mret []);
    '(placeholder_, backgroundColor) ←
      match placeholder with
      | PBlurred =>
          fallback ← call (base64 I file (base64Args args));
          mret (Some {| ph_fallback := fallback |}, None)
      | PTracedSVG =>
          fallback ← call (traceSVG I file tracedSVGOptions args);
          mret (Some {| ph_fallback := fallback |}, None)
      | _ =>
          if truthy_ostr (md_dominantColor metadata)
          then mret (None, md_dominantColor metadata)
          else mret (None, None)
      end;
    let primaryAspectRatio :=
      or_num (img_aspectRatio primaryImage) (Some (num 1)) in
    let '(width, height) :=
      layoutDimensions layout args primaryImage primaryAspectRatio in
    mret (Some {| out_layout := layout;
                  out_width := width;
                  out_height := height;
                  out_backgroundColor := backgroundColor;
                  out_placeholder := placeholder_;
                  out_images := {| fallback := fallback_;
                                   sources := sources_ |} |}).

End ImageData.

(** ** Runs of the process *)

(** The state at module load: an empty [metadataCache]. *)
Definition start (env : option string) : Process :=
  {| metadataCache := ∅; NODE_ENV := env; next_oid := 0; probes := [] |}.

Definition set_NODE_ENV (env : option string) (p : Process) : Process :=
  {| metadataCache := metadataCache p; NODE_ENV := env;
     next_oid := next_oid p; probes := probes p |}.

(** One step: a call of an exported function of the module that runs to
    completion (returning or throwing), or a change of
    [process.env.NODE_ENV] from outside. *)
Inductive step (I : Imports) : Process → Process → Prop :=
  | step_getImageMetadata file getDominantColor p :
      step I p (getImageMetadata I file getDominantColor p).2
  | step_generateImageData file args p :
      step I p (generateImageData I file args p).2
  | step_env env p :
      step I p (set_NODE_ENV env p).

Inductive reachable (I : Imports) : Process → Prop :=
  | reachable_start env : reachable I (start env)
  | reachable_step p p' : reachable I p → step I p p' → reachable I p'.

(** The arguments, the resolved metadata and the arrays of one call of
    [generateImageData] that got as far as the resize of the primary
    format: [metadataObj] and [p1] come from [getImageMetadata],
    [imageSizes] from [calculateImageSizes], [images] from
    [batchQueueImageResizing]. *)
Definition Resized (I : Imports)
    (file : FileNode) (args : ISharpGatsbyImageArgs) (p : Process)
    (metadataObj : Obj IImageMetadata) (p1 : Process)
    (imageSizes : ImageSizes) (images : list EncodedImage) : Prop :=
  let layout := default LFixed (args_layout args) in
  let placeholder := default PDominantColor (args_placeholder args) in
  getImageMetadata I file
    (Some (bool_decide (placeholder = PDominantColor))) p
    = (Return metadataObj, p1)
  ∧ calculateImageSizes I file layout args (val metadataObj)
    = Return imageSizes
  ∧ batchQueueImageResizing I file
      (transforms I args imageSizes
         (if truthy_ostr (args_toFormat args)
          then default "" (args_toFormat args)
          else md_format (val metadataObj)))
    = Return images.

Definition set_metadataCache
    (c : gmap string (Obj IImageMetadata)) (p : Process) : Process :=
  {| metadataCache := c; NODE_ENV := NODE_ENV p;
     next_oid := next_oid p; probes := probes p |}.

(** Where the [dominantColor] of a record comes from: line 54-56. *)
Definition computed_color (I : Imports) (o : option string) : Prop :=
  o = Some "#000000" ∨ ∃ r g b, o = Some (rgbToHex I r g b).

Definition cache_ok (I : Imports) (p : Process) : Prop :=
  ∀ k m, metadataCache p !! k = Some m →
         computed_color I (md_dominantColor (val m)).

(** ** A concrete environment

    Stand-ins for the imported functions, used to run the module on
    concrete inputs. *)
Module Demo.

(** Modelled from the spec: the [VariantSpec] that
    [createTransformObject] of [./plugin-options] (not part of the
    sources at hand) produces: width, height and format of one planned
    variant. *)
Record VariantSpec : Type := {
  vs_width : option number;
  vs_height : option number;
  vs_format : option string
}.

Definition createTransformObject_model
    (a : ISharpGatsbyImageArgs) : VariantSpec :=
  {| vs_width := args_width a; vs_height := args_height a;
     vs_format := args_toFormat a |}.

Definition hex_digit (n : Z) : ascii :=
  nth (Z.to_nat n) (list_ascii_of_string "0123456789abcdef") "0"%char.

Definition hex_byte (n : Z) : string :=
  String (hex_digit ((n / 16) `mod` 16)) (String (hex_digit (n `mod` 16)) "").

Definition channel (n : number) : Z :=
  match n with
  | Fin q => Qfloor q
  | _ => 0%Z
  end.

(** Modelled from the spec: [rgbToHex] of [./utils] (not part of the
    sources at hand) returns ["#rrggbb"], two hexadecimal digits per
    channel. *)
Definition rgbToHex_model (r g b : number) : string :=
  "#" +:+ hex_byte (channel r) +:+ hex_byte (channel g)
      +:+ hex_byte (channel b).

(** The resize stand-in encodes every planned variant at its planned
    size. *)
Definition encode (t : VariantSpec) : EncodedImage :=
  {| img_src := "/static/image";
     img_width := vs_width t;
     img_height := vs_height t;
     img_aspectRatio :=
       Some (num_div (ToNumber (vs_width t)) (ToNumber (vs_height t)));
     img_format := default "" (vs_format t) |}.

(** An 800x600 png whose dominant colour is (255, 128, 0); the sizing
    stand-in answers with the given [imageSizes]. *)
Definition imports (imageSizes : ImageSizes) : Imports :=
  {| Transform := VariantSpec;
     getImageSizeAsync := λ _,
       Return {| size_width := num 800; size_height := num 600;
                 size_type := "png" |};
     pipeline_metadata := λ _,
       Return {| sm_width := num 800; sm_height := num 600;
                 sm_density := Some "72"; sm_format := "png" |};
     pipeline_stats := λ _,
       Return {| dominant := Some {| rgb_r := num 255; rgb_g := num 128;
                                     rgb_b := num 0 |} |};
     rgbToHex := rgbToHex_model;
     calculateImageSizes := λ _ _ _ _, Return imageSizes;
     createTransformObject := createTransformObject_model;
     batchQueueImageResizing := λ _ ts, Return (map encode ts);
     getSrcSet := λ imgs, String.concat "," (map img_src imgs);
     getSizes := λ _, "100vw";
     base64 := λ _ _, Return "data:image/png;base64,AAAA";
     traceSVG := λ _ _ _, Return "data:image/svg+xml,<svg/>" |}.

Definition file : FileNode :=
  {| absolutePath := Some "/site/src/images/cat.png";
     contentDigest := "d41d8cd9" |}.

Definition no_args : ISharpGatsbyImageArgs :=
  {| args_layout := None; args_placeholder := None;
     args_tracedSVGOptions := None;
     args_width := None; args_height := None;
     args_maxWidth := None; args_maxHeight := None;
     args_fit := None; args_toFormat := None; args_sizes := None;
     args_webP := false;
     args_base64Width := None; args_base64Height := None |}.

Definition with_layout
    (layout : Layout) (placeholder : PlaceholderKind)
    (width height maxWidth maxHeight : option number) (fit : option Fit)
    : ISharpGatsbyImageArgs :=
  {| args_layout := Some layout; args_placeholder := Some placeholder;
     args_tracedSVGOptions := None;
     args_width := width; args_height := height;
     args_maxWidth := maxWidth; args_maxHeight := maxHeight;
     args_fit := fit; args_toFormat := None; args_sizes := None;
     args_webP := false;
     args_base64Width := None; args_base64Height := None |}.

(** Target widths 100.4 and 200.6 at aspect ratio 2. *)
Definition fractional_widths : ImageSizes :=
  {| sizes := [Fin (502 # 5); Fin (1003 # 5)];
     presentationWidth := Fin (502 # 5);
     presentationHeight := Fin (251 # 5);
     aspectRatio := num 2 |}.

(** One target width, 300, which is the presentation width; aspect
    ratio 1.5. *)
Definition exact_width : ImageSizes :=
  {| sizes := [num 300];
     presentationWidth := num 300;
     presentationHeight := num 200;
     aspectRatio := Fin (3 # 2) |}.

(** Target widths 100 and 200 for a presentation width of 150. *)
Definition no_exact_width : ImageSizes :=
  {| sizes := [num 100; num 200];
     presentationWidth := num 150;
     presentationHeight := num 75;
     aspectRatio := num 2 |}.

(** No target width at all. *)
Definition no_width : ImageSizes :=
  {| sizes := [];
     presentationWidth := num 300;
     presentationHeight := num 200;
     aspectRatio := Fin (3 # 2) |}.

(** A square source image. *)
Definition square : IImageMetadata :=
  {| md_width := num 50; md_height := num 50; md_format := "png";
     md_density := None; md_dominantColor := None |}.

(** The record the first resolution of [file] with its dominant colour
    builds, and the process after it. *)
Definition resolved : Obj IImageMetadata :=
  {| oid := 0;
     val := {| md_width := num 800; md_height := num 600;
               md_format := "png"; md_density := Some "72";
               md_dominantColor := Some "#ff8000" |} |}.

Definition after_first (env : option string) : Process :=
  {| metadataCache := {[ "d41d8cd9" := resolved ]};
     NODE_ENV := env; next_oid := 1;
     probes := [EvMetadata file; EvStats file] |}.

End Demo.

(** ** Vocabulary of the further properties *)

(** A possibly [undefined] number as the [&&] and [||] tests see it:
    a falsy one ([0], [NaN]) counts as [undefined]. *)
Definition drop_falsy (o : option number) : option number :=
  if truthy_opt o then o else None.

(** Absent, or a finite number that is not negative. *)
Definition finite_nonneg (o : option number) : Prop :=
  match o with
  | None => True
  | Some (Fin q) => (0 <= q)%Q
  | Some _ => False
  end.

(** The probes a call added to the trace. *)
Definition probes_added (p p' : Process) (new : list Event) : Prop :=
  probes p' = (probes p ++ new)%list.

(** ** A faulty environment

    The stand-ins of [Demo], with switches to make the sharp probes and
    the tracer reject, and a bound on the number of images the resize
    hands back. *)
Module Lab.

Definition unsupported : Error := Rejected "Input file has unsupported format".

Definition imports
    (imageSizes : ImageSizes)
    (broken_metadata broken_stats broken_trace : bool) (limit : nat)
    : Imports :=
  let good := Demo.imports imageSizes in
  {| Transform := Demo.VariantSpec;
     getImageSizeAsync := getImageSizeAsync good;
     pipeline_metadata := λ f,
       if broken_metadata then Throw unsupported
       else pipeline_metadata good f;
     pipeline_stats := λ f,
       if broken_stats then Throw unsupported else pipeline_stats good f;
     rgbToHex := Demo.rgbToHex_model;
     calculateImageSizes := calculateImageSizes good;
     createTransformObject := Demo.createTransformObject_model;
     batchQueueImageResizing := λ _ ts,
       Return (take limit (map Demo.encode ts));
     getSrcSet := getSrcSet good;
     getSizes := getSizes good;
     base64 := base64 good;
     traceSVG := λ f o a,
       if broken_trace then Throw unsupported else traceSVG good f o a |}.

(** Two dimensions that are given, but zero. *)
Definition zero_box : ISharpGatsbyImageArgs :=
  Demo.with_layout LFixed PNone (Some (num 0)) (Some (num 100))
    (Some (num 400)) (Some (num 100)) None.

(** The same request with the zero width left out. *)
Definition open_box : ISharpGatsbyImageArgs :=
  Demo.with_layout LFixed PNone None (Some (num 100))
    (Some (num 400)) (Some (num 100)) None.

(** Target widths 150, 300 and 300 again; 300 is the presentation
    width. *)
Definition repeated_width : ImageSizes :=
  {| sizes := [num 150; num 300; num 300];
     presentationWidth := num 300;
     presentationHeight := num 200;
     aspectRatio := Fin (3 # 2) |}.

(** A sizing that lost its presentation width. *)
Definition nan_width : ImageSizes :=
  {| sizes := [num 150; num 300];
     presentationWidth := NaN;
     presentationHeight := NaN;
     aspectRatio := Fin (3 # 2) |}.

(** Another file, with another content. *)
Definition other_file : FileNode :=
  {| absolutePath := Some "/site/src/images/dog.png";
     contentDigest := "e99a18c4" |}.

Definition webp_args (placeholder : PlaceholderKind) : ISharpGatsbyImageArgs :=
  {| args_layout := Some LFluid; args_placeholder := Some placeholder;
     args_tracedSVGOptions := None;
     args_width := None; args_height := None;
     args_maxWidth := None; args_maxHeight := None;
     args_fit := None; args_toFormat := Some "jpg";
     args_sizes := Some "(max-width: 300px) 100vw, 300px";
     args_webP := true;
     args_base64Width := None; args_base64Height := None |}.

End Lab.

(** * Properties *)

(** ** Numbers *)

Lemma Qeq_bool_false (x y : Q) : ¬ (x == y)%Q → Qeq_bool x y = false.
Proof.
  intros Hne. destruct (Qeq_bool x y) eqn:E; [|done].
  by apply Qeq_bool_iff in E.
Qed.

Lemma binary64_Qeq (x y : Q) : (x == y)%Q → binary64 x = binary64 y.
Proof. intros E. unfold binary64. by rewrite (Qred_complete x y E). Qed.

Lemma binary64_not_NaN (x : Q) : binary64 x ≠ NaN.
Proof.
  unfold binary64.
  destruct (Qnum (Qred x)); [done| |];
    by destruct (binary64_pos _ _).
Qed.

Lemma num_div_self (q : Q) : (0 < q)%Q → num_div (Fin q) (Fin q) = num 1.
Proof.
  intros Hq.
  assert (Hne : ¬ (q == 0)%Q).
  { intros E. rewrite E in Hq. by apply Qlt_irrefl in Hq. }
  unfold num_div. rewrite (Qeq_bool_false _ _ Hne).
  rewrite (binary64_Qeq (q / q) 1); [by vm_compute|].
  unfold Qdiv. by apply Qmult_inv_r.
Qed.

Lemma findIndex_from_no_match {A : Type} (f : A → bool) (l : list A) (i : Z) :
  Forall (λ x, f x = false) l → findIndex_from f l i = (-1)%Z.
Proof.
  intros Hall. revert i.
  induction Hall as [|x l Hx _ IH]; intros i; simpl; [done|].
  by rewrite Hx.
Qed.

Lemma lookup_map {A B : Type} (f : A → B) (l : list A) (i : nat) (x : A) :
  l !! i = Some x → map f l !! i = Some (f x).
Proof.
  revert i.
  induction l as [|y l IH]; intros [|i] Hi; simpl in *; simplify_eq.
  - done.
  - by apply IH.
Qed.

Lemma primaryOf_no_match (imageSizes : ImageSizes) (images : list EncodedImage) :
  Forall (λ size, strict_eq size (presentationWidth imageSizes) = false)
         (sizes imageSizes) →
  primaryOf imageSizes images = None.
Proof.
  intros Hall. unfold primaryOf, findIndex.
  by rewrite findIndex_from_no_match.
Qed.

(** ** getOutputAspectRatio *)

(** C7.  With [fit] set to [inside] or [outside], the aspect ratio is
    that of the source, [metadata.width / metadata.height], under every
    layout and whatever [width], [height], [maxWidth] and [maxHeight]
    are. *)
Theorem fit_inside_outside_keeps_source_ratio
    (args : ISharpGatsbyImageArgs) (metadata : IImageMetadata) :
  args_fit args = Some FitInside ∨ args_fit args = Some FitOutside →
  getOutputAspectRatio args metadata
  = num_div (md_width metadata) (md_height metadata).
Proof.
  intros [Hfit | Hfit]; unfold getOutputAspectRatio; by rewrite Hfit.
Qed.

(** The decision table on a square source.  For metadata whose width
    equals its height (a positive number), the aspect ratio is [1]
    when [fit] is [inside] or [outside], and otherwise when neither
    pair of explicit dimensions applies: [width] and [height] both
    truthy under the fixed layout, [maxWidth] and [maxHeight] both
    truthy under another layout.  When such a pair applies, the result
    is the ratio of that pair. *)
Lemma square_metadata_ratio
    (args : ISharpGatsbyImageArgs) (metadata : IImageMetadata) (q : Q) :
  md_width metadata = Fin q →
  md_height metadata = Fin q →
  (0 < q)%Q →
  let layout := default LFixed (args_layout args) in
  let fit := default FitCover (args_fit args) in
  let fixed_pair :=
    truthy_opt (args_height args) && truthy_opt (args_width args)
    && bool_decide (layout = LFixed) in
  let max_pair :=
    truthy_opt (args_maxWidth args) && truthy_opt (args_maxHeight args)
    && negb (bool_decide (layout = LFixed)) in
  (fit = FitInside ∨ fit = FitOutside
   ∨ (fixed_pair = false ∧ max_pair = false) →
   getOutputAspectRatio args metadata = num 1)
  ∧ (fit ≠ FitInside → fit ≠ FitOutside → fixed_pair = true →
     getOutputAspectRatio args metadata
     = num_div (ToNumber (args_width args)) (ToNumber (args_height args)))
  ∧ (fit ≠ FitInside → fit ≠ FitOutside → fixed_pair = false →
     max_pair = true →
     getOutputAspectRatio args metadata
     = num_div (ToNumber (args_maxWidth args))
               (ToNumber (args_maxHeight args))).
Proof.
  intros Hw Hh Hq layout fit fixed_pair max_pair.
  unfold getOutputAspectRatio. fold layout fit. fold fixed_pair max_pair.
  rewrite Hw, Hh, (num_div_self q Hq).
  split; [|split].
  - intros [Hfit | [Hfit | [Hfixed Hmax]]].
    + by rewrite Hfit.
    + rewrite Hfit. by rewrite orb_true_r.
    + rewrite Hfixed, Hmax. by destruct (_ || _).
  - intros Hin Hout Hfixed.
    rewrite !bool_decide_eq_false_2 by done. simpl. by rewrite Hfixed.
  - intros Hin Hout Hfixed Hmax.
    rewrite !bool_decide_eq_false_2 by done. simpl.
    by rewrite Hfixed, Hmax.
Qed.

(** C6.  For metadata whose width equals its height (a positive
    number), the aspect ratio is [1.0] under every layout and every
    fit: every combination of [layout] and [fit], absent or given, of a
    request that names no explicit dimension. *)
Theorem square_metadata_aspect_ratio_one
    (args : ISharpGatsbyImageArgs) (metadata : IImageMetadata) (q : Q) :
  md_width metadata = Fin q →
  md_height metadata = Fin q →
  (0 < q)%Q →
  args_width args = None → args_height args = None →
  args_maxWidth args = None → args_maxHeight args = None →
  getOutputAspectRatio args metadata = num 1.
Proof.
  intros Hw Hh Hq Hwidth Hheight Hmaxw Hmaxh.
  apply (square_metadata_ratio args metadata q Hw Hh Hq).
  right; right. by rewrite Hwidth, Hheight, Hmaxw, Hmaxh.
Qed.

(** ** getImageMetadata *)

Section GetImageMetadata.

Context (I : Imports).

Ltac run_metadata :=
  unfold getImageMetadata, mbind, Async_bind, mret, Async_ret, probe,
    new_object, cache_get, cache_set, env_NODE_ENV in *;
  simpl in *.

(** A hit outside test mode returns the cached object and leaves the
    process as it is. *)
Lemma getImageMetadata_hit
    (file : FileNode) (p : Process) (m : Obj IImageMetadata) :
  metadataCache p !! contentDigest file = Some m →
  NODE_ENV p ≠ Some "test" →
  getImageMetadata I file (Some true) p = (Return m, p).
Proof.
  intros Hhit Henv. run_metadata. rewrite Hhit.
  by rewrite bool_decide_eq_false_2.
Qed.

(** The slow path: a miss, or test mode. *)
Lemma getImageMetadata_slow (file : FileNode) (p : Process) :
  metadataCache p !! contentDigest file = None ∨ NODE_ENV p = Some "test" →
  getImageMetadata I file (Some true) p
  = (m ← probe (EvMetadata file) (pipeline_metadata I file);
     st ← probe (EvStats file) (pipeline_stats I file);
     metadata ← new_object
       {| md_width := sm_width m; md_height := sm_height m;
          md_format := sm_format m; md_density := sm_density m;
          md_dominantColor :=
            Some match dominant st with
                 | Some d => rgbToHex I (rgb_r d) (rgb_g d) (rgb_b d)
                 | None => "#000000"
                 end |};
     _ ← cache_set (contentDigest file) metadata;
     mret metadata) p.
Proof.
  intros [Hmiss | Htest]; run_metadata.
  - by rewrite Hmiss.
  - rewrite (bool_decide_eq_true_2 _ Htest).
    by destruct (metadataCache p !! contentDigest file).
Qed.

(** Without the dominant colour, the cache is neither read nor
    written. *)
Lemma getImageMetadata_cheap
    (file : FileNode) (getDominantColor : option bool) (p : Process) :
  getDominantColor = None ∨ getDominantColor = Some false →
  getImageMetadata I file getDominantColor p
  = (sz ← probe (EvImageSize file) (getImageSizeAsync I file);
     new_object {| md_width := size_width sz; md_height := size_height sz;
                   md_format := size_type sz; md_density := None;
                   md_dominantColor := None |}) p.
Proof. by intros [-> | ->]. Qed.

(** What one call does to the cache: nothing, or one insertion, under
    the digest of the file, of the record it returns, whose colour was
    computed by the call. *)
Lemma getImageMetadata_cache
    (file : FileNode) (getDominantColor : option bool) (p : Process) :
  let r := getImageMetadata I file getDominantColor p in
  metadataCache r.2 = metadataCache p
  ∨ ∃ m, r.1 = Return m
         ∧ computed_color I (md_dominantColor (val m))
         ∧ metadataCache r.2 = <[contentDigest file := m]> (metadataCache p).
Proof.
  simpl. destruct getDominantColor as [[|]|].
  - destruct (metadataCache p !! contentDigest file) as [c|] eqn:Hc;
      [destruct (decide (NODE_ENV p = Some "test")) as [Htest|Htest]|].
    2: { left. by rewrite (getImageMetadata_hit file p c). }
    all: rewrite getImageMetadata_slow by auto; run_metadata;
      destruct (pipeline_metadata I file); [|by left];
      destruct (pipeline_stats I file) as [st|]; [|by left];
      right; eexists; (split; [done|]); (split; [|done]); simpl;
      unfold computed_color; destruct (dominant st); eauto.
  - left. rewrite getImageMetadata_cheap by auto. run_metadata.
    by destruct (getImageSizeAsync I file).
  - left. rewrite getImageMetadata_cheap by auto. run_metadata.
    by destruct (getImageSizeAsync I file).
Qed.

Lemma getImageMetadata_cache_ok
    (file : FileNode) (getDominantColor : option bool) (p : Process) :
  cache_ok I p → cache_ok I (getImageMetadata I file getDominantColor p).2.
Proof.
  intros Hok k m.
  destruct (getImageMetadata_cache file getDominantColor p)
    as [-> | (m' & _ & Hcol & ->)]; [by apply Hok|].
  destruct (decide (contentDigest file = k)) as [<- | Hne].
  - rewrite lookup_insert_eq. by intros [= <-].
  - rewrite lookup_insert_ne by done. by apply Hok.
Qed.

(** The record a call with the dominant colour returns carries a
    computed colour, whether it was cached or built by the call. *)
Lemma getImageMetadata_color
    (file : FileNode) (p p' : Process) (m : Obj IImageMetadata) :
  cache_ok I p →
  getImageMetadata I file (Some true) p = (Return m, p') →
  computed_color I (md_dominantColor (val m)).
Proof.
  intros Hok Hrun.
  destruct (getImageMetadata_cache file (Some true) p)
    as [Hsame | (m' & Hret & Hcol & _)]; rewrite Hrun in *; simpl in *.
  - destruct (metadataCache p !! contentDigest file) as [c|] eqn:Hc;
      [destruct (decide (NODE_ENV p = Some "test")) as [Htest|Htest]|].
    2: { rewrite (getImageMetadata_hit file p c) in Hrun by done.
         simplify_eq. by eapply Hok. }
    all: rewrite getImageMetadata_slow in Hrun by auto; run_metadata;
      destruct (pipeline_metadata I file); [|done];
      destruct (pipeline_stats I file) as [st|]; [|done];
      simplify_eq; simpl; unfold computed_color;
      destruct (dominant st); eauto.
  - by simplify_eq.
Qed.

(** C4.  A call with the dominant colour that returns has the returned
    record in [metadataCache] under the content digest of the file.  A
    second resolution of that digest outside test mode, right after or
    in any later state that still holds the record, returns the very
    same object and leaves the process unchanged: no probe, no
    statistics.  In test mode nothing is taken from the cache: the
    resolution asks sharp for the metadata, then for the statistics,
    builds a new record from them and stores it under the digest; if a
    probe rejects, so does the resolution, after the probe was made. *)
Theorem metadata_cache_memoises
    (file : FileNode) (p p' : Process) (m : Obj IImageMetadata) :
  getImageMetadata I file (Some true) p = (Return m, p') →
  metadataCache p' !! contentDigest file = Some m
  ∧ (∀ file', contentDigest file' = contentDigest file →
       NODE_ENV p' ≠ Some "test" →
       getImageMetadata I file' (Some true) p' = (Return m, p'))
  ∧ (∀ file' q, contentDigest file' = contentDigest file →
       metadataCache q !! contentDigest file = Some m →
       NODE_ENV q ≠ Some "test" →
       getImageMetadata I file' (Some true) q = (Return m, q))
  ∧ (∀ file' q sm st,
       NODE_ENV q = Some "test" →
       pipeline_metadata I file' = Return sm →
       pipeline_stats I file' = Return st →
       let fresh :=
         {| oid := next_oid q;
            val := {| md_width := sm_width sm; md_height := sm_height sm;
                      md_format := sm_format sm;
                      md_density := sm_density sm;
                      md_dominantColor :=
                        Some match dominant st with
                             | Some d =>
                                 rgbToHex I (rgb_r d) (rgb_g d) (rgb_b d)
                             | None => "#000000"
                             end |} |} in
       getImageMetadata I file' (Some true) q
       = (Return fresh,
          {| metadataCache := <[contentDigest file' := fresh]>
                                (metadataCache q);
             NODE_ENV := NODE_ENV q;
             next_oid := S (next_oid q);
             probes := (probes q ++ [EvMetadata file'; EvStats file'])%list
          |}))
  ∧ (∀ file' q e,
       NODE_ENV q = Some "test" →
       (pipeline_metadata I file' = Throw e →
        getImageMetadata I file' (Some true) q
        = (Throw e,
           {| metadataCache := metadataCache q; NODE_ENV := NODE_ENV q;
              next_oid := next_oid q;
              probes := (probes q ++ [EvMetadata file'])%list |}))
       ∧ (∀ sm, pipeline_metadata I file' = Return sm →
                pipeline_stats I file' = Throw e →
                getImageMetadata I file' (Some true) q
                = (Throw e,
                   {| metadataCache := metadataCache q;
                      NODE_ENV := NODE_ENV q; next_oid := next_oid q;
                      probes := (probes q ++ [EvMetadata file';
                                              EvStats file'])%list |}))).
Proof.
  intros Hrun.
  assert (Hstored : metadataCache p' !! contentDigest file = Some m).
  { destruct (metadataCache p !! contentDigest file) as [c|] eqn:Hc;
      [destruct (decide (NODE_ENV p = Some "test")) as [Htest|Htest]|].
    2: { rewrite (getImageMetadata_hit file p c) in Hrun by done.
         by simplify_eq. }
    all: rewrite getImageMetadata_slow in Hrun by auto; run_metadata;
      destruct (pipeline_metadata I file); [|done];
      destruct (pipeline_stats I file); [|done];
      simplify_eq; simpl; by rewrite lookup_insert_eq. }
  split; [done|]. split; [|split; [|split]].
  - intros file' Hdigest Henv.
    apply getImageMetadata_hit; [by rewrite Hdigest | done].
  - intros file' q Hdigest Hq Henv.
    apply getImageMetadata_hit; [by rewrite Hdigest | done].
  - intros file' q sm st Htest Hsm Hst. cbv zeta.
    rewrite getImageMetadata_slow by auto. run_metadata.
    rewrite Hsm, Hst. simpl. by rewrite <- app_assoc.
  - intros file' q e Htest. split.
    + intros Hsm. rewrite getImageMetadata_slow by auto. run_metadata.
      by rewrite Hsm.
    + intros sm Hsm Hst. rewrite getImageMetadata_slow by auto.
      run_metadata. rewrite Hsm, Hst. simpl. by rewrite <- app_assoc.
Qed.

(** C9.  When the statistics are computed (a miss, or test mode) and
    both probes succeed, the record returned carries ["#000000"] if the
    statistics have no [dominant] field, and otherwise the conversion
    by [rgbToHex] of its [r], [g] and [b]. *)
Theorem dominant_color_or_black
    (file : FileNode) (p : Process) (m : SharpMetadata) (st : SharpStats) :
  metadataCache p !! contentDigest file = None ∨ NODE_ENV p = Some "test" →
  pipeline_metadata I file = Return m →
  pipeline_stats I file = Return st →
  ∃ o p',
    getImageMetadata I file (Some true) p = (Return o, p')
    ∧ (dominant st = None → md_dominantColor (val o) = Some "#000000")
    ∧ (∀ d, dominant st = Some d →
         md_dominantColor (val o)
         = Some (rgbToHex I (rgb_r d) (rgb_g d) (rgb_b d))).
Proof.
  intros Hslow Hm Hst.
  rewrite getImageMetadata_slow by done. run_metadata.
  rewrite Hm, Hst. eexists _, _. split; [done|]. simpl.
  split; [by intros ->|]. by intros d ->.
Qed.

End GetImageMetadata.

(** ** generateImageData *)

Section GenerateImageData.

Context (I : Imports).

Ltac run_async :=
  unfold mbind, Async_bind, mret, Async_ret, call, member, throw in *;
  simpl in *.

(** What a call that returns a descriptor went through, and what the
    descriptor holds. *)
Lemma generateImageData_inv
    (file : FileNode) (args : ISharpGatsbyImageArgs) (p p' : Process)
    (d : ISharpGatsbyImageData) :
  generateImageData I file args p = (Return (Some d), p') →
  let layout := default LFixed (args_layout args) in
  let placeholder := default PDominantColor (args_placeholder args) in
  ∃ metadataObj imageSizes images primaryImage,
    Resized I file args p metadataObj p' imageSizes images
    ∧ images ≠ []
    ∧ primaryOf imageSizes images = Some primaryImage
    ∧ out_layout d = layout
    ∧ (out_width d, out_height d)
      = layoutDimensions layout args primaryImage
          (or_num (img_aspectRatio primaryImage) (Some (num 1)))
    ∧ fb_src (fallback (out_images d)) = img_src primaryImage
    ∧ match placeholder with
      | PBlurred =>
          ∃ src, base64 I file (base64Args args) = Return src
                 ∧ out_placeholder d = Some {| ph_fallback := src |}
                 ∧ out_backgroundColor d = None
      | PTracedSVG =>
          ∃ svg, traceSVG I file (default [] (args_tracedSVGOptions args))
                   args = Return svg
                 ∧ out_placeholder d = Some {| ph_fallback := svg |}
                 ∧ out_backgroundColor d = None
      | PDominantColor | PNone =>
          out_placeholder d = None
          ∧ out_backgroundColor d
            = (if truthy_ostr (md_dominantColor (val metadataObj))
               then md_dominantColor (val metadataObj) else None)
      end.
Proof.
  intros Hrun. cbv zeta.
  unfold generateImageData in Hrun. run_async.
  destruct (getImageMetadata I file _ p) as [[metadataObj|e] p1] eqn:Hmd;
    [|done].
  destruct (calculateImageSizes I file _ args (val metadataObj))
    as [imageSizes|e] eqn:Hsz; [|done].
  destruct (batchQueueImageResizing I file _) as [images|e] eqn:Himg;
    [|done].
  case_bool_decide as Hlen; [done|].
  destruct (primaryOf imageSizes images) as [primaryImage|] eqn:Hprim;
    [|done].
  run_async.
  exists metadataObj, imageSizes, images, primaryImage.
  assert (Hne : images ≠ []) by (intros ->; done).
  destruct (layoutDimensions _ args primaryImage _) as [width height].
  destruct (args_webP args);
    [destruct (batchQueueImageResizing I file (transforms I args _ "webp"));
       [|done]|];
    (destruct (default PDominantColor (args_placeholder args)) eqn:Hp;
     [destruct (traceSVG I file _ args); [|done]
     |destruct (truthy_ostr (md_dominantColor (val metadataObj)))
     |destruct (base64 I file _); [|done]
     |destruct (truthy_ostr (md_dominantColor (val metadataObj)))]);
    simplify_eq; simpl; unfold Resized; rewrite ?Hp; repeat split; eauto.
Qed.

(** After [getImageMetadata], the call no longer touches the process. *)
Lemma generateImageData_process
    (file : FileNode) (args : ISharpGatsbyImageArgs) (p : Process) :
  (generateImageData I file args p).2
  = (getImageMetadata I file
       (Some (bool_decide
                (default PDominantColor (args_placeholder args)
                 = PDominantColor))) p).2.
Proof.
  unfold generateImageData. run_async.
  destruct (getImageMetadata I file _ p) as [[metadataObj|e] p1]; [|done].
  run_async.
  repeat (case_match; run_async; simplify_eq; try done).
Qed.

Lemma reachable_cache_ok (p : Process) : reachable I p → cache_ok I p.
Proof.
  induction 1 as [env | p p' _ IH Hstep].
  - intros k m Hk. simpl in Hk. by rewrite lookup_empty in Hk.
  - destruct Hstep as [file flag p | file args p | env p].
    + by apply getImageMetadata_cache_ok.
    + rewrite generateImageData_process. by apply getImageMetadata_cache_ok.
    + done.
Qed.

Lemma computed_color_truthy (o : option string) :
  (∀ r g b, rgbToHex I r g b ≠ "") →
  computed_color I o → truthy_ostr o = true.
Proof.
  intros Hhex [-> | (r & g & b & ->)]; [done|]. simpl.
  specialize (Hhex r g b). by destruct (rgbToHex I r g b).
Qed.

Lemma truthy_or_one (a : option number) :
  truthy_opt (or_num a (Some (num 1))) = true.
Proof. unfold or_num. by destruct (truthy_opt a) eqn:E. Qed.

(** C8.  Whatever the layout, when the resize of the primary format
    yields an empty array, the call returns [undefined]: no
    descriptor. *)
Theorem no_images_no_descriptor
    (file : FileNode) (args : ISharpGatsbyImageArgs) (p p1 : Process)
    (metadataObj : Obj IImageMetadata) (imageSizes : ImageSizes) :
  Resized I file args p metadataObj p1 imageSizes [] →
  generateImageData I file args p = (Return None, p1).
Proof.
  intros (Hmd & Hsz & Himg). unfold generateImageData. run_async.
  by rewrite Hmd, Hsz, Himg.
Qed.

(** C1, as amended.  When the resize yields a non-empty array but no
    target width is [===] to the presentation width, the primary image
    is [undefined], and the call fails: reading its [src] throws a
    [TypeError].  No descriptor is returned. *)
Theorem no_exact_width_throws
    (file : FileNode) (args : ISharpGatsbyImageArgs) (p p1 : Process)
    (metadataObj : Obj IImageMetadata) (imageSizes : ImageSizes)
    (images : list EncodedImage) :
  Resized I file args p metadataObj p1 imageSizes images →
  images ≠ [] →
  Forall (λ size, strict_eq size (presentationWidth imageSizes) = false)
         (sizes imageSizes) →
  primaryOf imageSizes images = None
  ∧ generateImageData I file args p
    = (Throw (TypeError "Cannot read properties of undefined"), p1).
Proof.
  intros (Hmd & Hsz & Himg) Hne Hnone.
  pose proof (primaryOf_no_match imageSizes images Hnone) as Hprim.
  split; [done|].
  unfold generateImageData. run_async. rewrite Hmd, Hsz, Himg, Hprim.
  by destruct images.
Qed.


(** C5.  In a returned descriptor at most one of [placeholder] and
    [backgroundColor] is set.  [blurred] and [tracedSVG] set the
    placeholder and no background colour; [none] sets neither;
    [dominantColor] (also the default) sets no placeholder and, in any
    run of the process from module load where [rgbToHex] never returns
    an empty string, sets the background colour. *)
Theorem placeholder_exclusive
    (file : FileNode) (args : ISharpGatsbyImageArgs) (p p' : Process)
    (d : ISharpGatsbyImageData) :
  generateImageData I file args p = (Return (Some d), p') →
  (out_placeholder d = None ∨ out_backgroundColor d = None)
  ∧ match default PDominantColor (args_placeholder args) with
    | PBlurred | PTracedSVG =>
        is_Some (out_placeholder d) ∧ out_backgroundColor d = None
    | PDominantColor =>
        out_placeholder d = None
        ∧ (reachable I p → (∀ r g b, rgbToHex I r g b ≠ "") →
           is_Some (out_backgroundColor d))
    | PNone =>
        out_placeholder d = None ∧ out_backgroundColor d = None
    end.
Proof.
  intros Hrun.
  destruct (generateImageData_inv file args p p' d Hrun)
    as (metadataObj & imageSizes & images & primaryImage
        & (Hmd & _) & _ & _ & _ & _ & _ & Hph).
  cbv zeta in Hph.
  destruct (default PDominantColor (args_placeholder args)).
  - destruct Hph as (svg & _ & -> & ->). eauto.
  - destruct Hph as [-> Hbg]. split; [by left|]. split; [done|].
    intros Hreach Hhex. rewrite Hbg.
    pose proof (getImageMetadata_color I file p p' metadataObj
                  (reachable_cache_ok p Hreach) Hmd) as Hcol.
    rewrite (computed_color_truthy _ Hhex Hcol).
    destruct Hcol as [-> | (r & g & b & ->)]; eauto.
  - destruct Hph as (src & _ & -> & ->). eauto.
  - destruct Hph as [-> Hbg].
    assert (md_dominantColor (val metadataObj) = None) as Hnone.
    { rewrite getImageMetadata_cheap in Hmd by (right; done).
      unfold mbind, Async_bind, probe, new_object in Hmd. simpl in Hmd.
      destruct (getImageSizeAsync I file); by simplify_eq. }
    rewrite Hnone in Hbg. simpl in Hbg. auto.
Qed.

(** C2.  The plan [generateImageData] hands to
    [batchQueueImageResizing] for the primary format has one transform
    per target width, in the same order; the one for target width [w]
    is [createTransformObject] of [args] with [width = round w],
    [height = round (round w / aspectRatio)] and the format.  For
    target widths 100.4 and 200.6 and aspect ratio 2 the planned
    dimensions are 100x50 and 201x101.  That this plan is the one
    submitted shows in the outcome: what the resize answers on it
    decides the call, an error being passed on and an empty array
    giving [undefined]. *)
Theorem plan_follows_target_widths
    (file : FileNode) (args : ISharpGatsbyImageArgs) (p p1 : Process)
    (metadataObj : Obj IImageMetadata) (imageSizes : ImageSizes) :
  let layout := default LFixed (args_layout args) in
  let placeholder := default PDominantColor (args_placeholder args) in
  let toFormat :=
    if truthy_ostr (args_toFormat args)
    then default "" (args_toFormat args) else md_format (val metadataObj) in
  getImageMetadata I file
    (Some (bool_decide (placeholder = PDominantColor))) p
  = (Return metadataObj, p1) →
  calculateImageSizes I file layout args (val metadataObj)
  = Return imageSizes →
  ∃ plan : list (Transform I),
    length plan = length (sizes imageSizes)
    ∧ (∀ (i : nat) (w : number),
         sizes imageSizes !! i = Some w →
         let width := Math_round w in
         let height :=
           Math_round (num_div width (aspectRatio imageSizes)) in
         plan !! i
         = Some (createTransformObject I
                   (transformArgs args width height toFormat))
         ∧ args_width (transformArgs args width height toFormat)
           = Some width
         ∧ args_height (transformArgs args width height toFormat)
           = Some height)
    ∧ (sizes imageSizes = [Fin (502 # 5); Fin (1003 # 5)] →
       aspectRatio imageSizes = num 2 →
       plan = [ createTransformObject I
                  (transformArgs args (num 100) (num 50) toFormat);
                createTransformObject I
                  (transformArgs args (num 201) (num 101) toFormat) ])
    ∧ (∀ e, batchQueueImageResizing I file plan = Throw e →
            generateImageData I file args p = (Throw e, p1))
    ∧ (batchQueueImageResizing I file plan = Return [] →
       generateImageData I file args p = (Return None, p1)).
Proof.
  intros layout placeholder toFormat Hmd Hsz.
  exists (transforms I args imageSizes toFormat).
  split; [|split; [|split; [|split]]].
  - unfold transforms. by rewrite length_map.
  - intros i w Hw. cbv zeta. split; [|done].
    unfold transforms. by rewrite (lookup_map _ _ i w Hw).
  - intros Hsizes Har. unfold transforms. by rewrite Hsizes, Har.
  - intros e He. unfold generateImageData. run_async.
    fold layout placeholder. rewrite Hmd, Hsz. fold toFormat.
    by rewrite He.
  - intros Himg. unfold generateImageData. run_async.
    fold layout placeholder. rewrite Hmd, Hsz. fold toFormat.
    by rewrite Himg.
Qed.

(** C10.  In every run of the process from module load, each record in
    [metadataCache] has its [dominantColor] set.  A call of
    [getImageMetadata] without the dominant colour ([false] or absent)
    leaves the cache as it is and behaves the same whatever the cache
    holds; and any call changes the cache at most by inserting the
    record it returns, whose [dominantColor] is set. *)
Theorem cached_records_have_dominantColor
    (p : Process) (k : string) (m : Obj IImageMetadata) :
  reachable I p →
  metadataCache p !! k = Some m →
  is_Some (md_dominantColor (val m))
  ∧ (∀ file getDominantColor q c,
       getDominantColor = None ∨ getDominantColor = Some false →
       metadataCache (getImageMetadata I file getDominantColor q).2
       = metadataCache q
       ∧ getImageMetadata I file getDominantColor (set_metadataCache c q)
         = ((getImageMetadata I file getDominantColor q).1,
            set_metadataCache c
              (getImageMetadata I file getDominantColor q).2))
  ∧ (∀ file getDominantColor q,
       let r := getImageMetadata I file getDominantColor q in
       metadataCache r.2 = metadataCache q
       ∨ ∃ m', r.1 = Return m'
               ∧ is_Some (md_dominantColor (val m'))
               ∧ metadataCache r.2
                 = <[contentDigest file := m']> (metadataCache q)).
Proof.
  intros Hreach Hk. split; [|split].
  - destruct (reachable_cache_ok p Hreach k m Hk)
      as [-> | (r & g & b & ->)]; eauto.
  - intros file flag q c Hflag.
    rewrite !(getImageMetadata_cheap I file flag) by done.
    unfold mbind, Async_bind, probe, new_object. simpl.
    by destruct (getImageSizeAsync I file).
  - intros file flag q. simpl.
    destruct (getImageMetadata_cache I file flag q)
      as [Hsame | (m' & Hret & Hcol & Hins)]; [by left|right].
    exists m'. split; [done|]. split; [|done].
    destruct Hcol as [-> | (r & g & b & ->)]; eauto.
Qed.

End GenerateImageData.

(** * The theorems at work on concrete inputs *)

Example Math_round_ties_up :
  Math_round (Fin (5 # 2)) = num 3 ∧ Math_round (Fin (-5 # 2)) = num (-2)
  ∧ Math_round (Fin (1003 # 5)) = num 201.
Proof. by repeat split. Qed.

Example first_resolution (env : option string) :
  getImageMetadata (Demo.imports Demo.exact_width) Demo.file (Some true)
    (start env)
  = (Return Demo.resolved, Demo.after_first env).
Proof. reflexivity. Qed.

(** C7 at work: [fit: inside] with an explicit 200x100 box on the
    800x600 source. *)
Lemma fit_inside_outside_keeps_source_ratio_witness :
  let args := Demo.with_layout LFixed PNone (Some (num 200))
                (Some (num 100)) None None (Some FitInside) in
  (args_fit args = Some FitInside ∨ args_fit args = Some FitOutside)
  ∧ getOutputAspectRatio args (val Demo.resolved)
    = num_div (md_width (val Demo.resolved)) (md_height (val Demo.resolved))
  ∧ getOutputAspectRatio args (val Demo.resolved)
    = Fin (6004799503160661 # 4503599627370496).
Proof.
  split; [by left|]. split; [|reflexivity].
  apply fit_inside_outside_keeps_source_ratio. by left.
Defined.

(** C6 at work: every layout and every fit on the square source. *)
Lemma square_metadata_aspect_ratio_one_witness :
  md_width Demo.square = Fin 50 ∧ md_height Demo.square = Fin 50
  ∧ (0 < 50)%Q
  ∧ ∀ layout fit,
      getOutputAspectRatio
        (Demo.with_layout layout PNone None None None None fit) Demo.square
      = num 1.
Proof.
  split; [reflexivity|]. split; [reflexivity|]. split; [reflexivity|].
  intros layout fit.
  exact (square_metadata_aspect_ratio_one
           (Demo.with_layout layout PNone None None None None fit)
           Demo.square 50 eq_refl eq_refl eq_refl
           eq_refl eq_refl eq_refl eq_refl).
Defined.

(** C4 at work: the first resolution stores [Demo.resolved]; outside
    test mode the second one returns it without a probe; in test mode
    the second one probes twice and stores object 1 in its place. *)
Lemma metadata_cache_memoises_witness :
  let I := Demo.imports Demo.exact_width in
  let fresh := {| oid := 1; val := val Demo.resolved |} in
  getImageMetadata I Demo.file (Some true) (start None)
  = (Return Demo.resolved, Demo.after_first None)
  ∧ metadataCache (Demo.after_first None) !! contentDigest Demo.file
    = Some Demo.resolved
  ∧ getImageMetadata I Demo.file (Some true) (Demo.after_first None)
    = (Return Demo.resolved, Demo.after_first None)
  ∧ getImageMetadata I Demo.file (Some true)
      (Demo.after_first (Some "test"))
    = (Return fresh,
       {| metadataCache := {[ "d41d8cd9" := fresh ]};
          NODE_ENV := Some "test"; next_oid := 2;
          probes := [EvMetadata Demo.file; EvStats Demo.file;
                     EvMetadata Demo.file; EvStats Demo.file] |}).
Proof.
  intros I fresh. split; [reflexivity|].
  destruct (metadata_cache_memoises I Demo.file (start None)
              (Demo.after_first None) Demo.resolved eq_refl)
    as (Hstored & Hagain & _ & Htest & _).
  split; [exact Hstored|]. split.
  - apply Hagain; [reflexivity | discriminate].
  - exact (Htest Demo.file (Demo.after_first (Some "test")) _ _
             eq_refl eq_refl eq_refl).
Defined.

(** C9 at work: the dominant colour (255, 128, 0) of the stand-in. *)
Lemma dominant_color_or_black_witness :
  let I := Demo.imports Demo.exact_width in
  let m := {| sm_width := num 800; sm_height := num 600;
              sm_density := Some "72"; sm_format := "png" |} in
  let st := {| dominant := Some {| rgb_r := num 255; rgb_g := num 128;
                                   rgb_b := num 0 |} |} in
  (metadataCache (start None) !! contentDigest Demo.file = None
   ∨ NODE_ENV (start None) = Some "test")
  ∧ pipeline_metadata I Demo.file = Return m
  ∧ pipeline_stats I Demo.file = Return st
  ∧ ∃ o p',
      getImageMetadata I Demo.file (Some true) (start None) = (Return o, p')
      ∧ (dominant st = None → md_dominantColor (val o) = Some "#000000")
      ∧ (∀ d, dominant st = Some d →
           md_dominantColor (val o)
           = Some (rgbToHex I (rgb_r d) (rgb_g d) (rgb_b d))).
Proof.
  intros I m st.
  split; [left; reflexivity|]. split; [reflexivity|]. split; [reflexivity|].
  apply (dominant_color_or_black I Demo.file (start None) m st);
    [left; reflexivity | reflexivity | reflexivity].
Defined.

(** C8 at work: no target width, hence no image, hence no
    descriptor. *)
Lemma no_images_no_descriptor_witness :
  let I := Demo.imports Demo.no_width in
  let args := Demo.with_layout LFluid PNone None None None None None in
  let p1 := (getImageMetadata I Demo.file (Some false) (start None)).2 in
  Resized I Demo.file args (start None)
    {| oid := 0;
       val := {| md_width := num 800; md_height := num 600;
                 md_format := "png"; md_density := None;
                 md_dominantColor := None |} |}
    p1 Demo.no_width []
  ∧ generateImageData I Demo.file args (start None) = (Return None, p1).
Proof.
  intros I args p1.
  assert (Hres : Resized I Demo.file args (start None)
            {| oid := 0;
               val := {| md_width := num 800; md_height := num 600;
                         md_format := "png"; md_density := None;
                         md_dominantColor := None |} |}
            p1 Demo.no_width []).
  { repeat split; reflexivity. }
  split; [exact Hres|].
  exact (no_images_no_descriptor I Demo.file args (start None) p1 _ _ Hres).
Defined.

(** C1 as stated fails: target widths 100 and 200 for a presentation
    width of 150 give two encoded images and no exact match, and the
    call returns no descriptor: it throws. *)
Lemma no_exact_width_counterexample :
  let I := Demo.imports Demo.no_exact_width in
  let r := generateImageData I Demo.file Demo.no_args (start None) in
  batchQueueImageResizing I Demo.file
    (transforms I Demo.no_args Demo.no_exact_width "png")
  = Return [ {| img_src := "/static/image";
                img_width := Some (num 100); img_height := Some (num 50);
                img_aspectRatio := Some (num 2); img_format := "png" |};
             {| img_src := "/static/image";
                img_width := Some (num 200); img_height := Some (num 100);
                img_aspectRatio := Some (num 2); img_format := "png" |} ]
  ∧ Forall (λ size, strict_eq size (num 150) = false) [num 100; num 200]
  ∧ r.1 = Throw (TypeError "Cannot read properties of undefined")
  ∧ ¬ ∃ d, r.1 = Return (Some d).
Proof.
  intros I r. split; [reflexivity|]. split; [by repeat constructor|].
  split; [reflexivity|]. by intros [d Hd].
Qed.

(** C1 as amended, at work on the same input. *)
Lemma no_exact_width_throws_witness :
  let I := Demo.imports Demo.no_exact_width in
  let images := map Demo.encode
                  (transforms I Demo.no_args Demo.no_exact_width "png") in
  Resized I Demo.file Demo.no_args (start None) Demo.resolved
    (Demo.after_first None) Demo.no_exact_width images
  ∧ images ≠ []
  ∧ Forall (λ size,
              strict_eq size (presentationWidth Demo.no_exact_width) = false)
           (sizes Demo.no_exact_width)
  ∧ primaryOf Demo.no_exact_width images = None
  ∧ generateImageData I Demo.file Demo.no_args (start None)
    = (Throw (TypeError "Cannot read properties of undefined"),
       Demo.after_first None).
Proof.
  intros I images.
  assert (Hres : Resized I Demo.file Demo.no_args (start None) Demo.resolved
                   (Demo.after_first None) Demo.no_exact_width images).
  { repeat split; reflexivity. }
  assert (Hne : images ≠ []) by discriminate.
  assert (Hnone : Forall (λ size,
              strict_eq size (presentationWidth Demo.no_exact_width) = false)
           (sizes Demo.no_exact_width)) by (by repeat constructor).
  split; [exact Hres|]. split; [exact Hne|]. split; [exact Hnone|].
  exact (no_exact_width_throws I Demo.file Demo.no_args (start None)
           (Demo.after_first None) Demo.resolved Demo.no_exact_width images
           Hres Hne Hnone).
Defined.

Lemma Demo_rgbToHex_nonempty (r g b : number) :
  Demo.rgbToHex_model r g b ≠ "".
Proof. discriminate. Qed.


(** C5 at work: the default strategy on the stand-in sets the
    background colour and no placeholder. *)
Lemma placeholder_exclusive_witness :
  let I := Demo.imports Demo.exact_width in
  let d :=
    {| out_layout := LFixed;
       out_width := Some (num 300);
       out_height := Some (num 200);
       out_backgroundColor := Some "#ff8000";
       out_placeholder := None;
       out_images :=
         {| fallback := {| fb_src := "/static/image";
                           fb_srcSet := "/static/image";
                           fb_sizes := "100vw" |};
            sources := [] |} |} in
  generateImageData I Demo.file Demo.no_args (start None)
  = (Return (Some d), Demo.after_first None)
  ∧ reachable I (start None)
  ∧ (out_placeholder d = None ∨ out_backgroundColor d = None)
  ∧ out_placeholder d = None
  ∧ is_Some (out_backgroundColor d).
Proof.
  intros I d. split; [reflexivity|]. split; [constructor|].
  destruct (placeholder_exclusive I Demo.file Demo.no_args (start None)
              (Demo.after_first None) d eq_refl)
    as (Hone & Hnone & Hbg).
  split; [exact Hone|]. split; [exact Hnone|].
  apply Hbg; [constructor | exact Demo_rgbToHex_nonempty].
Defined.

(** C2 at work: the plan for target widths 100.4 and 200.6 at aspect
    ratio 2, on the 800x600 png of the stand-ins. *)
Lemma plan_follows_target_widths_witness :
  let I := Demo.imports Demo.fractional_widths in
  getImageMetadata I Demo.file (Some true) (start None)
  = (Return Demo.resolved, Demo.after_first None)
  ∧ calculateImageSizes I Demo.file LFixed Demo.no_args (val Demo.resolved)
    = Return Demo.fractional_widths
  ∧ ∃ plan : list Demo.VariantSpec,
      plan = [ {| Demo.vs_width := Some (num 100);
                  Demo.vs_height := Some (num 50);
                  Demo.vs_format := Some "png" |};
               {| Demo.vs_width := Some (num 201);
                  Demo.vs_height := Some (num 101);
                  Demo.vs_format := Some "png" |} ]
      ∧ length plan = 2%nat.
Proof.
  intros I. split; [reflexivity|]. split; [reflexivity|].
  destruct (plan_follows_target_widths I Demo.file Demo.no_args
              (start None) (Demo.after_first None) Demo.resolved
              Demo.fractional_widths eq_refl eq_refl)
    as (plan & Hlen & _ & Hexample & _).
  exists plan. split; [|exact Hlen].
  exact (Hexample eq_refl eq_refl).
Defined.

(** C10 at work: the cache after the first resolution. *)
Lemma cached_records_have_dominantColor_witness :
  let I := Demo.imports Demo.exact_width in
  reachable I (Demo.after_first None)
  ∧ metadataCache (Demo.after_first None) !! "d41d8cd9" = Some Demo.resolved
  ∧ is_Some (md_dominantColor (val Demo.resolved))
  ∧ metadataCache
      (getImageMetadata I Demo.file None (Demo.after_first None)).2
    = metadataCache (Demo.after_first None).
Proof.
  intros I.
  assert (Hreach : reachable I (Demo.after_first None)).
  { exact (reachable_step I (start None) _ (reachable_start I None)
             (step_getImageMetadata I Demo.file (Some true) (start None))). }
  split; [exact Hreach|]. split; [reflexivity|].
  destruct (cached_records_have_dominantColor I (Demo.after_first None)
              "d41d8cd9" Demo.resolved Hreach eq_refl)
    as (Hset & Hcheap & _).
  split; [exact Hset|].
  exact (proj1 (Hcheap Demo.file None (Demo.after_first None) ∅
                  (or_introl eq_refl))).
Defined.

(** * Further properties *)

(** ** getOutputAspectRatio *)

Lemma truthy_finite_nonneg (o : option number) :
  truthy_opt o = true → finite_nonneg o →
  ∃ q, o = Some (Fin q) ∧ (0 < q)%Q.
Proof.
  destruct o as [[q| | |]|]; simpl; try done.
  intros Hq Hle. exists q. split; [done|].
  apply Qle_lteq in Hle as [Hlt | Heq]; [done|].
  apply negb_true_iff in Hq.
  destruct (Qeq_bool q 0) eqn:E; [done|].
  exfalso. symmetry in Heq. apply Qeq_bool_iff in Heq. congruence.
Qed.

Lemma round_half_even_nonneg (n d : Z) :
  (0 <= n)%Z → (0 < d)%Z → (0 <= round_half_even n d)%Z.
Proof.
  intros Hn Hd. unfold round_half_even.
  pose proof (Z.div_pos n d Hn Hd).
  destruct (_ ?= _)%Z; [destruct (Z.even _)| |]; lia.
Qed.

Lemma scale2_signs (n d : positive) (e n2 d2 : Z) :
  scale2 (Zpos n) (Zpos d) e = (n2, d2) → (0 <= n2)%Z ∧ (0 < d2)%Z.
Proof.
  unfold scale2. destruct (Z.leb_spec 0 e) as [He|He]; intros [= <- <-].
  - pose proof (Z.pow_pos_nonneg 2 e). lia.
  - pose proof (Z.pow_pos_nonneg 2 (- e)). lia.
Qed.

Lemma binary64_pos_nonneg (n d : positive) (v : Q) :
  binary64_pos n d = Some v → (0 <= v)%Q.
Proof.
  unfold binary64_pos.
  destruct (scale2 _ _ (Z.log2 _ - Z.log2 _)) as [n1 d1].
  set (e := Z.max _ _).
  destruct (scale2 (Zpos n) (Zpos d) e) as [n2 d2] eqn:Hscale.
  destruct (scale2_signs n d e n2 d2 Hscale) as [Hn2 Hd2].
  pose proof (round_half_even_nonneg n2 d2 Hn2 Hd2) as Hm.
  destruct (Z.leb_spec 0 e) as [He|He].
  - destruct (2 ^ 1024 <=? round_half_even n2 d2 * 2 ^ e)%Z; [done|].
    intros [= <-].
    pose proof (Z.pow_pos_nonneg 2 e). unfold Qle. simpl. nia.
  - intros [= <-]. rewrite Qred_correct. unfold Qle. simpl. lia.
Qed.

Lemma num_div_nonneg (x y : Q) :
  (0 < x)%Q → (0 < y)%Q →
  num_div (Fin x) (Fin y) = PosInf
  ∨ ∃ q, num_div (Fin x) (Fin y) = Fin q ∧ (0 <= q)%Q.
Proof.
  intros Hx Hy. unfold num_div.
  rewrite Qeq_bool_false.
  2: { intros E. rewrite E in Hy. by apply Qlt_irrefl in Hy. }
  assert (Hpos : (0 < Qred (x / y))%Q).
  { rewrite Qred_correct. apply Qlt_shift_div_l; [done|].
    by rewrite Qmult_0_l. }
  unfold binary64.
  destruct (Qred (x / y)) as [[|n|n] d]; simpl in *; [done| |done].
  destruct (binary64_pos n d) as [v|] eqn:Hv; [|by left].
  right. exists v. split; [done|]. by apply (binary64_pos_nonneg n d).
Qed.

(** X1.  Under the fixed layout (also the default) the aspect ratio does
    not depend on [maxWidth] and [maxHeight]; under the other layouts
    it does not depend on [width] and [height]. *)
Theorem aspect_ratio_ignores_other_layout
    (a b : ISharpGatsbyImageArgs) (metadata : IImageMetadata) :
  args_layout a = args_layout b →
  args_fit a = args_fit b →
  (default LFixed (args_layout a) = LFixed →
   args_width a = args_width b → args_height a = args_height b →
   getOutputAspectRatio a metadata = getOutputAspectRatio b metadata)
  ∧ (default LFixed (args_layout a) ≠ LFixed →
     args_maxWidth a = args_maxWidth b →
     args_maxHeight a = args_maxHeight b →
     getOutputAspectRatio a metadata = getOutputAspectRatio b metadata).
Proof.
  intros Hl Hf. unfold getOutputAspectRatio. rewrite <- Hl, <- Hf.
  split.
  - intros Hfixed <- <-. rewrite Hfixed. simpl.
    by rewrite !andb_false_r.
  - intros Hother <- <-.
    rewrite (bool_decide_eq_false_2 _ Hother). simpl.
    by rewrite !andb_false_r.
Qed.

(** X2.  An explicit dimension that is [0] or [NaN] counts as one that is
    not given: two requests that agree once their falsy dimensions are
    dropped have the same aspect ratio. *)
Theorem falsy_dimension_is_absent
    (a b : ISharpGatsbyImageArgs) (metadata : IImageMetadata) :
  args_layout a = args_layout b →
  args_fit a = args_fit b →
  drop_falsy (args_width a) = drop_falsy (args_width b) →
  drop_falsy (args_height a) = drop_falsy (args_height b) →
  drop_falsy (args_maxWidth a) = drop_falsy (args_maxWidth b) →
  drop_falsy (args_maxHeight a) = drop_falsy (args_maxHeight b) →
  getOutputAspectRatio a metadata = getOutputAspectRatio b metadata.
Proof.
  intros Hl Hf Hw Hh Hmw Hmh.
  unfold getOutputAspectRatio. rewrite <- Hl, <- Hf.
  unfold drop_falsy in *.
  destruct (truthy_opt (args_width a)) eqn:Ewa,
           (truthy_opt (args_width b)) eqn:Ewb,
           (truthy_opt (args_height a)) eqn:Eha,
           (truthy_opt (args_height b)) eqn:Ehb,
           (truthy_opt (args_maxWidth a)) eqn:Emwa,
           (truthy_opt (args_maxWidth b)) eqn:Emwb,
           (truthy_opt (args_maxHeight a)) eqn:Emha,
           (truthy_opt (args_maxHeight b)) eqn:Emhb;
    simplify_eq; simpl; rewrite ?Hw, ?Hh, ?Hmw, ?Hmh; try done;
    try (rewrite Hw in Ewa; simpl in Ewa; done);
    try (rewrite <- Hw in Ewb; simpl in Ewb; done);
    try (rewrite Hh in Eha; simpl in Eha; done);
    try (rewrite <- Hh in Ehb; simpl in Ehb; done);
    try (rewrite Hmw in Emwa; simpl in Emwa; done);
    try (rewrite <- Hmw in Emwb; simpl in Emwb; done);
    try (rewrite Hmh in Emha; simpl in Emha; done);
    try (rewrite <- Hmh in Emhb; simpl in Emhb; done).
Qed.

(** X3.  No [0 / 0]: for a source of positive width and height and
    explicit dimensions that are each absent or a finite number that is
    not negative, the aspect ratio is never [NaN] and never negative.
    It is a finite number that is not negative ([0] when the quotient
    underflows) or [+Infinity] (when it overflows). *)
Theorem aspect_ratio_never_NaN
    (args : ISharpGatsbyImageArgs) (metadata : IImageMetadata) (w h : Q) :
  md_width metadata = Fin w → md_height metadata = Fin h →
  (0 < w)%Q → (0 < h)%Q →
  finite_nonneg (args_width args) → finite_nonneg (args_height args) →
  finite_nonneg (args_maxWidth args) → finite_nonneg (args_maxHeight args) →
  getOutputAspectRatio args metadata = PosInf
  ∨ ∃ q, getOutputAspectRatio args metadata = Fin q ∧ (0 <= q)%Q.
Proof.
  intros Hw Hh Hwpos Hhpos Hnw Hnh Hnmw Hnmh.
  unfold getOutputAspectRatio. rewrite Hw, Hh.
  destruct (_ || _); [by apply num_div_nonneg|].
  destruct (truthy_opt (args_height args)) eqn:Eh,
           (truthy_opt (args_width args)) eqn:Ew; simpl;
    try destruct (bool_decide (_ = LFixed)); simpl;
    try (destruct (truthy_finite_nonneg _ Ew Hnw) as (x & -> & Hx);
         destruct (truthy_finite_nonneg _ Eh Hnh) as (y & -> & Hy);
         by apply num_div_nonneg);
    try by apply num_div_nonneg.
  all: destruct (truthy_opt (args_maxWidth args)) eqn:Emw,
                (truthy_opt (args_maxHeight args)) eqn:Emh; simpl;
    try by apply num_div_nonneg.
  all: destruct (truthy_finite_nonneg _ Emw Hnmw) as (x & -> & Hx);
       destruct (truthy_finite_nonneg _ Emh Hnmh) as (y & -> & Hy);
       by apply num_div_nonneg.
Qed.

(** ** getImageMetadata: failures, history and identities *)

Section MetadataEffects.

Context (I : Imports).

Ltac metadata_cases file p :=
  unfold getImageMetadata, mbind, Async_bind, mret, Async_ret, probe,
    new_object, cache_get, cache_set, env_NODE_ENV;
  simpl;
  destruct (metadataCache p !! contentDigest file);
  destruct (bool_decide (NODE_ENV p = Some "test"));
  destruct (pipeline_metadata I file);
  try destruct (pipeline_stats I file);
  destruct (getImageSizeAsync I file);
  simpl.

(** Everything one call does to the process. *)
Lemma getImageMetadata_effect
    (file : FileNode) (getDominantColor : option bool) (p : Process) :
  let r := getImageMetadata I file getDominantColor p in
  NODE_ENV r.2 = NODE_ENV p
  ∧ (∃ new, probes_added p r.2 new)
  ∧ (next_oid r.2 = next_oid p ∧ metadataCache r.2 = metadataCache p
     ∨ ∃ m, r.1 = Return m ∧ oid m = next_oid p
            ∧ next_oid r.2 = S (next_oid p)
            ∧ (metadataCache r.2 = metadataCache p
               ∨ metadataCache r.2
                 = <[contentDigest file := m]> (metadataCache p))).
Proof.
  unfold probes_added.
  destruct getDominantColor as [[|]|]; metadata_cases file p;
    (split; [done|]);
    (split; [first [ by exists []; rewrite app_nil_r
                   | by eexists; rewrite <- ?app_assoc ] |]);
    first [ by left | right; eexists; repeat split; eauto ].
Qed.

Lemma getImageMetadata_cheap_cache
    (file : FileNode) (getDominantColor : option bool) (p : Process) :
  getDominantColor = None ∨ getDominantColor = Some false →
  metadataCache (getImageMetadata I file getDominantColor p).2
  = metadataCache p.
Proof.
  intros Hflag. rewrite getImageMetadata_cheap by done.
  unfold mbind, Async_bind, probe, new_object. simpl.
  by destruct (getImageSizeAsync I file).
Qed.

Lemma generateImageData_effect
    (file : FileNode) (args : ISharpGatsbyImageArgs) (p : Process) :
  ∃ getDominantColor,
    (generateImageData I file args p).2
    = (getImageMetadata I file getDominantColor p).2.
Proof. eexists. apply generateImageData_process. Qed.

(** X4.  A resolution that fails caches nothing.  On the path that probes
    with sharp (a miss, or test mode): when [pipeline.metadata()]
    rejects, the call rejects with the same error, the statistics are
    not asked for and the cache is as before; when [pipeline.stats()]
    rejects, the call rejects with that error and the cache is as
    before. *)
Theorem failed_probe_caches_nothing
    (file : FileNode) (p : Process) (e : Error) :
  metadataCache p !! contentDigest file = None ∨ NODE_ENV p = Some "test" →
  let r := getImageMetadata I file (Some true) p in
  (pipeline_metadata I file = Throw e →
   r.1 = Throw e
   ∧ metadataCache r.2 = metadataCache p
   ∧ probes_added p r.2 [EvMetadata file])
  ∧ (∀ m, pipeline_metadata I file = Return m →
          pipeline_stats I file = Throw e →
          r.1 = Throw e
          ∧ metadataCache r.2 = metadataCache p
          ∧ probes_added p r.2 [EvMetadata file; EvStats file]).
Proof.
  intros Hslow. cbv zeta. rewrite getImageMetadata_slow by done.
  unfold mbind, Async_bind, probe, probes_added. simpl. split.
  - by intros ->.
  - intros m -> ->. simpl. by rewrite <- app_assoc.
Qed.

(** X5.  What no call ever does: [getImageMetadata] and [generateImageData]
    leave [process.env.NODE_ENV] alone, only append to the history of
    probes, and never remove a key from the cache. *)
Theorem calls_keep_env_history_and_keys
    (file : FileNode) (p : Process) :
  (∀ getDominantColor,
     let p' := (getImageMetadata I file getDominantColor p).2 in
     NODE_ENV p' = NODE_ENV p
     ∧ probes p `prefix_of` probes p'
     ∧ dom (metadataCache p) ⊆ dom (metadataCache p'))
  ∧ (∀ args,
       let p' := (generateImageData I file args p).2 in
       NODE_ENV p' = NODE_ENV p
       ∧ probes p `prefix_of` probes p'
       ∧ dom (metadataCache p) ⊆ dom (metadataCache p')).
Proof.
  assert (Hmd : ∀ getDominantColor,
     let p' := (getImageMetadata I file getDominantColor p).2 in
     NODE_ENV p' = NODE_ENV p
     ∧ probes p `prefix_of` probes p'
     ∧ dom (metadataCache p) ⊆ dom (metadataCache p')).
  { intros flag. cbv zeta.
    destruct (getImageMetadata_effect file flag p)
      as (Henv & [new Hnew] & Hcache).
    split; [done|]. split; [by exists new|].
    destruct Hcache as [[_ ->] | (m & _ & _ & _ & [-> | ->])];
      [done..|].
    rewrite dom_insert. set_solver. }
  split; [done|].
  intros args. cbv zeta. rewrite generateImageData_process. apply Hmd.
Qed.

(** X6.  A call writes the cache only on the path it takes after its
    own lookup missed, or in test mode, and then only when it returns,
    under the digest of its own file.  A call that finds its digest
    cached outside test mode writes nothing. *)
Theorem cache_written_only_after_miss_or_in_test
    (file : FileNode) (p : Process) :
  (∀ getDominantColor,
     let r := getImageMetadata I file getDominantColor p in
     metadataCache r.2 = metadataCache p
     ∨ getDominantColor = Some true
       ∧ (metadataCache p !! contentDigest file = None
          ∨ NODE_ENV p = Some "test")
       ∧ ∃ m, r.1 = Return m
              ∧ metadataCache r.2
                = <[contentDigest file := m]> (metadataCache p))
  ∧ (∀ args,
       let p' := (generateImageData I file args p).2 in
       metadataCache p' = metadataCache p
       ∨ default PDominantColor (args_placeholder args) = PDominantColor
         ∧ (metadataCache p !! contentDigest file = None
            ∨ NODE_ENV p = Some "test")
         ∧ ∃ m, metadataCache p'
                = <[contentDigest file := m]> (metadataCache p)).
Proof.
  assert (Hmd : ∀ getDominantColor,
     let r := getImageMetadata I file getDominantColor p in
     metadataCache r.2 = metadataCache p
     ∨ getDominantColor = Some true
       ∧ (metadataCache p !! contentDigest file = None
          ∨ NODE_ENV p = Some "test")
       ∧ ∃ m, r.1 = Return m
              ∧ metadataCache r.2
                = <[contentDigest file := m]> (metadataCache p)).
  { intros flag. cbv zeta. destruct flag as [[|]|].
    - destruct (metadataCache p !! contentDigest file) as [c|] eqn:Hc;
        [destruct (decide (NODE_ENV p = Some "test")) as [Htest|Htest]|].
      2: { left. by rewrite (getImageMetadata_hit I file p c). }
      all: destruct (getImageMetadata_cache I file (Some true) p)
             as [-> | (m & Hret & _ & Hins)]; [by left|];
           right; split; [done|]; split; [by auto|]; by exists m.
    - left. by apply getImageMetadata_cheap_cache; auto.
    - left. by apply getImageMetadata_cheap_cache; auto. }
  split; [done|].
  intros args. cbv zeta. rewrite generateImageData_process.
  destruct (default PDominantColor (args_placeholder args)) eqn:Hph;
    simpl.
  2: { destruct (Hmd (Some true)) as [-> | (_ & Hslow & m & _ & ->)];
         [by left|]. right. split; [done|]. split; [done|]. by exists m. }
  all: left; by apply getImageMetadata_cheap_cache; auto.
Qed.

End MetadataEffects.

Section Identities.

Context (I : Imports).

Lemma reachable_identities (p : Process) :
  reachable I p →
  (∀ k m, metadataCache p !! k = Some m → oid m < next_oid p)
  ∧ (∀ k1 k2 m1 m2,
       metadataCache p !! k1 = Some m1 → metadataCache p !! k2 = Some m2 →
       oid m1 = oid m2 → k1 = k2).
Proof.
  induction 1 as [env | p p' _ [IHlt IHinj] Hstep].
  - split; intros *; simpl; by rewrite lookup_empty.
  - assert (Hmd : ∀ file flag,
        let q := (getImageMetadata I file flag p).2 in
        (∀ k m, metadataCache q !! k = Some m → oid m < next_oid q)
        ∧ (∀ k1 k2 m1 m2,
             metadataCache q !! k1 = Some m1 →
             metadataCache q !! k2 = Some m2 →
             oid m1 = oid m2 → k1 = k2)).
    { intros file flag. cbv zeta.
      destruct (getImageMetadata_effect I file flag p)
        as (_ & _ & [[-> ->] | (m & _ & Hoid & -> & [-> | ->])]).
      - done.
      - split; [|done]. intros k m' Hk. specialize (IHlt k m' Hk). lia.
      - split.
        + intros k m' Hk.
          destruct (decide (contentDigest file = k)) as [<- | Hne].
          * rewrite lookup_insert_eq in Hk. simplify_eq. lia.
          * rewrite lookup_insert_ne in Hk by done.
            specialize (IHlt k m' Hk). lia.
        + intros k1 k2 m1 m2 H1 H2 Heq.
          destruct (decide (contentDigest file = k1)) as [<- | Hne1],
                   (decide (contentDigest file = k2)) as [<- | Hne2];
            [done| | |].
          * rewrite lookup_insert_eq in H1.
            rewrite lookup_insert_ne in H2 by done. simplify_eq.
            specialize (IHlt k2 m2 H2). lia.
          * rewrite lookup_insert_eq in H2.
            rewrite lookup_insert_ne in H1 by done. simplify_eq.
            specialize (IHlt k1 m1 H1). lia.
          * rewrite lookup_insert_ne in H1, H2 by done. eauto. }
    destruct Hstep as [file flag p | file args p | env p].
    + apply Hmd.
    + rewrite generateImageData_process. apply Hmd.
    + done.
Qed.

(** X7.  In every run of the process from module load, the records cached
    under two different digests are two different objects. *)
Theorem cached_objects_are_distinct
    (p : Process) (k1 k2 : string) (m1 m2 : Obj IImageMetadata) :
  reachable I p →
  metadataCache p !! k1 = Some m1 →
  metadataCache p !! k2 = Some m2 →
  k1 ≠ k2 →
  oid m1 ≠ oid m2.
Proof.
  intros Hreach H1 H2 Hne Heq.
  destruct (reachable_identities p Hreach) as [_ Hinj]. eauto.
Qed.

(** X8.  In test mode a resolution with the dominant colour of a digest
    that is already cached returns a new object, not the cached one,
    and puts it in the cache in place of the old one; the other digests
    keep their records. *)
Theorem test_mode_replaces_cached_record
    (file : FileNode) (p p' : Process) (c m : Obj IImageMetadata) :
  reachable I p →
  NODE_ENV p = Some "test" →
  metadataCache p !! contentDigest file = Some c →
  getImageMetadata I file (Some true) p = (Return m, p') →
  oid m ≠ oid c
  ∧ metadataCache p' !! contentDigest file = Some m
  ∧ (∀ k, k ≠ contentDigest file →
          metadataCache p' !! k = metadataCache p !! k).
Proof.
  intros Hreach Htest Hc Hrun.
  destruct (reachable_identities p Hreach) as [Hlt _].
  specialize (Hlt _ _ Hc).
  rewrite getImageMetadata_slow in Hrun by auto.
  unfold mbind, Async_bind, mret, Async_ret, probe, new_object,
    cache_set in Hrun. simpl in Hrun.
  destruct (pipeline_metadata I file); [|done].
  destruct (pipeline_stats I file); [|done].
  simplify_eq. simpl. split; [lia|]. split.
  - by rewrite lookup_insert_eq.
  - intros k Hk. by rewrite lookup_insert_ne.
Qed.

End Identities.

(** ** generateImageData: probes, failures and the parts of the descriptor *)

Section Assembly.

Context (I : Imports).

Ltac run_async :=
  unfold mbind, Async_bind, mret, Async_ret, call, member, throw in *;
  simpl in *.

(** X9.  The statistics are computed for the [dominantColor] placeholder
    only.  With [blurred], [tracedSVG] or [none] a call makes the size
    probe and nothing else, and leaves the cache alone, whether it
    returns or throws; with [dominantColor] (also the default) it makes
    no size probe: nothing on a hit, else the metadata probe and, if
    that one succeeds, the statistics. *)
Theorem statistics_only_for_dominantColor
    (file : FileNode) (args : ISharpGatsbyImageArgs) (p : Process) :
  let p' := (generateImageData I file args p).2 in
  match default PDominantColor (args_placeholder args) with
  | PDominantColor =>
      probes_added p p' []
      ∨ probes_added p p' [EvMetadata file]
      ∨ probes_added p p' [EvMetadata file; EvStats file]
  | PBlurred | PTracedSVG | PNone =>
      metadataCache p' = metadataCache p
      ∧ probes_added p p' [EvImageSize file]
  end.
Proof.
  cbv zeta. rewrite generateImageData_process. unfold probes_added.
  destruct (default PDominantColor (args_placeholder args)); simpl.
  2: { unfold getImageMetadata, mbind, Async_bind, mret, Async_ret, probe,
         new_object, cache_get, cache_set, env_NODE_ENV. simpl.
       destruct (metadataCache p !! contentDigest file);
         destruct (bool_decide (NODE_ENV p = Some "test")); simpl;
         try (left; by rewrite app_nil_r);
         destruct (pipeline_metadata I file); simpl; try (right; by left);
         destruct (pipeline_stats I file); simpl;
         right; right; by rewrite <- app_assoc. }
  all: unfold getImageMetadata, mbind, Async_bind, probe, new_object; simpl;
    by destruct (getImageSizeAsync I file).
Qed.

(** X10.  A call for the [dominantColor] placeholder whose digest is cached
    has, outside test mode, no effect on the process at all. *)
Theorem cached_call_leaves_process
    (file : FileNode) (args : ISharpGatsbyImageArgs) (p : Process)
    (m : Obj IImageMetadata) :
  default PDominantColor (args_placeholder args) = PDominantColor →
  metadataCache p !! contentDigest file = Some m →
  NODE_ENV p ≠ Some "test" →
  (generateImageData I file args p).2 = p.
Proof.
  intros Hph Hhit Henv. rewrite generateImageData_process, Hph. simpl.
  by rewrite (getImageMetadata_hit I file p m).
Qed.

(** X11.  Where an error of [generateImageData] comes from: it is the error
    of one of the imported functions, passed on as it is, or it is the
    [TypeError] of reading [src] on a primary image that is
    [undefined]. *)
Theorem thrown_error_origin
    (file : FileNode) (args : ISharpGatsbyImageArgs) (p p' : Process)
    (e : Error) :
  generateImageData I file args p = (Throw e, p') →
  let layout := default LFixed (args_layout args) in
  let placeholder := default PDominantColor (args_placeholder args) in
  getImageMetadata I file
    (Some (bool_decide (placeholder = PDominantColor))) p = (Throw e, p')
  ∨ ∃ metadataObj,
      getImageMetadata I file
        (Some (bool_decide (placeholder = PDominantColor))) p
      = (Return metadataObj, p')
      ∧ (calculateImageSizes I file layout args (val metadataObj) = Throw e
         ∨ ∃ imageSizes,
             calculateImageSizes I file layout args (val metadataObj)
             = Return imageSizes
             ∧ (batchQueueImageResizing I file
                  (transforms I args imageSizes
                     (if truthy_ostr (args_toFormat args)
                      then default "" (args_toFormat args)
                      else md_format (val metadataObj)))
                = Throw e
                ∨ ∃ images,
                    Resized I file args p metadataObj p' imageSizes images
                    ∧ images ≠ []
                    ∧ (primaryOf imageSizes images = None
                       ∧ e = TypeError "Cannot read properties of undefined"
                       ∨ args_webP args = true
                         ∧ batchQueueImageResizing I file
                             (transforms I args imageSizes "webp")
                           = Throw e
                       ∨ placeholder = PBlurred
                         ∧ base64 I file (base64Args args) = Throw e
                       ∨ placeholder = PTracedSVG
                         ∧ traceSVG I file
                             (default [] (args_tracedSVGOptions args)) args
                           = Throw e))).
Proof.
  intros Hrun. cbv zeta.
  unfold generateImageData in Hrun. run_async.
  destruct (getImageMetadata I file _ p) as [[metadataObj|e0] p1] eqn:Hmd;
    [|left; by simplify_eq].
  right. exists metadataObj.
  destruct (calculateImageSizes I file _ args (val metadataObj))
    as [imageSizes|e0] eqn:Hsz; [|simplify_eq; by auto].
  destruct (batchQueueImageResizing I file _) as [images|e0] eqn:Himg;
    [|simplify_eq; split; [done|]; right; eexists; eauto].
  case_bool_decide as Hlen; [done|].
  assert (Hne : images ≠ []) by (intros ->; done).
  destruct (primaryOf imageSizes images) as [primaryImage|] eqn:Hprim;
    run_async.
  2: { simplify_eq. split; [done|]. right. eexists. split; [done|]. right.
       exists images. unfold Resized. rewrite Hmd, Hsz, Himg. auto 10. }
  destruct (layoutDimensions _ args primaryImage _) as [width height].
  destruct (args_webP args) eqn:Hwebp;
    [destruct (batchQueueImageResizing I file (transforms I args _ "webp"))
       eqn:Hwebpimg|];
    (destruct (default PDominantColor (args_placeholder args)) eqn:Hp;
     [destruct (traceSVG I file _ args) eqn:Htrace
     |destruct (truthy_ostr (md_dominantColor (val metadataObj)))
     |destruct (base64 I file _) eqn:Hb64
     |destruct (truthy_ostr (md_dominantColor (val metadataObj)))]);
    simplify_eq;
    (split; [done|]); right; eexists; (split; [done|]); right;
    exists images; unfold Resized; rewrite ?Hp, Hmd, Hsz, Himg;
    (split; [done|]); (split; [done|]); auto 10.
Qed.

End Assembly.

(** *** The primary image *)

(** [i] is the first index of [l] whose element satisfies [f]. *)
Lemma findIndex_from_first {A : Type} (f : A → bool) (l : list A)
    (i : nat) (x : A) (i0 : Z) :
  l !! i = Some x → f x = true →
  (∀ j y, j < i → l !! j = Some y → f y = false) →
  findIndex_from f l i0 = (i0 + Z.of_nat i)%Z.
Proof.
  revert i i0. induction l as [|y l IH]; intros [|i] i0 Hi Hx Hbefore;
    simpl in *; simplify_eq.
  - rewrite Hx. lia.
  - rewrite (Hbefore 0%nat y) by (done || lia).
    rewrite (IH i (i0 + 1)%Z Hi Hx); [lia|].
    intros j z Hj Hz. apply (Hbefore (S j) z); [lia|done].
Qed.

Lemma findIndex_from_inv {A : Type} (f : A → bool) (l : list A) (i0 : Z) :
  (Forall (λ x, f x = false) l ∧ findIndex_from f l i0 = (-1)%Z)
  ∨ ∃ i x, l !! i = Some x ∧ f x = true
           ∧ (∀ j y, j < i → l !! j = Some y → f y = false)
           ∧ findIndex_from f l i0 = (i0 + Z.of_nat i)%Z.
Proof.
  revert i0. induction l as [|y l IH]; intros i0; simpl.
  - left. by split.
  - destruct (f y) eqn:Hy.
    + right. exists 0%nat, y. repeat split; [done| |lia].
      intros j z Hj. lia.
    + destruct (IH (i0 + 1)%Z) as [[Hall ->] | (i & x & Hi & Hx & Hb & ->)].
      * left. split; [by constructor|done].
      * right. exists (S i), x. repeat split; [done..| |lia].
        intros [|j] z Hj Hz; simpl in Hz; [by simplify_eq|].
        apply (Hb j z); [lia|done].
Qed.

Lemma primaryOf_first
    (imageSizes : ImageSizes) (images : list EncodedImage)
    (i : nat) (w : number) :
  sizes imageSizes !! i = Some w →
  strict_eq w (presentationWidth imageSizes) = true →
  (∀ j w', j < i → sizes imageSizes !! j = Some w' →
           strict_eq w' (presentationWidth imageSizes) = false) →
  primaryOf imageSizes images = images !! i.
Proof.
  intros Hi Hw Hbefore. unfold primaryOf, findIndex, array_get.
  rewrite (findIndex_from_first _ _ i w 0%Z Hi Hw Hbefore).
  rewrite Z.add_0_l, Nat2Z.id.
  destruct (Z.ltb_spec (Z.of_nat i) 0); [lia|done].
Qed.

Lemma primaryOf_Some_inv
    (imageSizes : ImageSizes) (images : list EncodedImage)
    (primaryImage : EncodedImage) :
  primaryOf imageSizes images = Some primaryImage →
  ∃ i w,
    sizes imageSizes !! i = Some w
    ∧ strict_eq w (presentationWidth imageSizes) = true
    ∧ (∀ j w', j < i → sizes imageSizes !! j = Some w' →
               strict_eq w' (presentationWidth imageSizes) = false)
    ∧ images !! i = Some primaryImage.
Proof.
  intros Hprim.
  destruct (findIndex_from_inv
              (λ size, strict_eq size (presentationWidth imageSizes))
              (sizes imageSizes) 0%Z)
    as [[Hall _] | (i & w & Hi & Hw & Hb & _)].
  - by rewrite primaryOf_no_match in Hprim.
  - exists i, w. repeat split; [done..|].
    by rewrite <- (primaryOf_first imageSizes images i w Hi Hw Hb).
Qed.

Section Primary.

Context (I : Imports).

Ltac run_async :=
  unfold mbind, Async_bind, mret, Async_ret, call, member, throw in *;
  simpl in *.

Lemma generateImageData_no_primary
    (file : FileNode) (args : ISharpGatsbyImageArgs) (p p1 : Process)
    (metadataObj : Obj IImageMetadata) (imageSizes : ImageSizes)
    (images : list EncodedImage) :
  Resized I file args p metadataObj p1 imageSizes images →
  images ≠ [] →
  primaryOf imageSizes images = None →
  generateImageData I file args p
  = (Throw (TypeError "Cannot read properties of undefined"), p1).
Proof.
  intros (Hmd & Hsz & Himg) Hne Hprim.
  unfold generateImageData. run_async. rewrite Hmd, Hsz, Himg, Hprim.
  by destruct images.
Qed.

(** X12.  The resize is trusted to hand back one image per transform.  When
    it hands back fewer, but at least one, and the first target width
    equal to the presentation width sits at an index past the end of
    the array, the call throws the [TypeError] as well. *)
Theorem short_image_array_throws
    (file : FileNode) (args : ISharpGatsbyImageArgs) (p p1 : Process)
    (metadataObj : Obj IImageMetadata) (imageSizes : ImageSizes)
    (images : list EncodedImage) (i : nat) (w : number) :
  Resized I file args p metadataObj p1 imageSizes images →
  images ≠ [] →
  sizes imageSizes !! i = Some w →
  strict_eq w (presentationWidth imageSizes) = true →
  (∀ j w', j < i → sizes imageSizes !! j = Some w' →
           strict_eq w' (presentationWidth imageSizes) = false) →
  (length images ≤ i)%nat →
  generateImageData I file args p
  = (Throw (TypeError "Cannot read properties of undefined"), p1).
Proof.
  intros Hres Hne Hi Hw Hb Hlen.
  apply (generateImageData_no_primary file args p p1 metadataObj
           imageSizes images Hres Hne).
  rewrite (primaryOf_first imageSizes images i w Hi Hw Hb).
  by apply lookup_ge_None.
Qed.

(** X13.  The primary image of a returned descriptor is the image at the
    index of the first target width that is [===] to the presentation
    width; [fallback.src] is the [src] of that image. *)
Theorem primary_is_first_exact_match
    (file : FileNode) (args : ISharpGatsbyImageArgs) (p p' : Process)
    (d : ISharpGatsbyImageData) :
  generateImageData I file args p = (Return (Some d), p') →
  ∃ metadataObj imageSizes images i w primaryImage,
    Resized I file args p metadataObj p' imageSizes images
    ∧ sizes imageSizes !! i = Some w
    ∧ strict_eq w (presentationWidth imageSizes) = true
    ∧ (∀ j w', j < i → sizes imageSizes !! j = Some w' →
               strict_eq w' (presentationWidth imageSizes) = false)
    ∧ images !! i = Some primaryImage
    ∧ fb_src (fallback (out_images d)) = img_src primaryImage.
Proof.
  intros Hrun.
  destruct (generateImageData_inv I file args p p' d Hrun)
    as (metadataObj & imageSizes & images & primaryImage
        & Hres & _ & Hprim & _ & _ & Hsrc & _).
  destruct (primaryOf_Some_inv imageSizes images primaryImage Hprim)
    as (i & w & Hi & Hw & Hb & Himg).
  exists metadataObj, imageSizes, images, i, w, primaryImage. eauto 10.
Qed.

(** X14.  A presentation width that is [NaN] is [===] to no target width:
    once the primary format is resized, the call returns [undefined]
    if there is no image and throws the [TypeError] otherwise; it never
    returns a descriptor. *)
Theorem nan_presentation_width_no_descriptor
    (file : FileNode) (args : ISharpGatsbyImageArgs) (p p1 : Process)
    (metadataObj : Obj IImageMetadata) (imageSizes : ImageSizes)
    (images : list EncodedImage) :
  Resized I file args p metadataObj p1 imageSizes images →
  presentationWidth imageSizes = NaN →
  generateImageData I file args p
  = (if bool_decide (images = [])
     then Return None
     else Throw (TypeError "Cannot read properties of undefined"), p1).
Proof.
  intros Hres Hnan. case_bool_decide as Hempty.
  - subst images. destruct Hres as (Hmd & Hsz & Himg).
    unfold generateImageData. run_async. by rewrite Hmd, Hsz, Himg.
  - apply (generateImageData_no_primary file args p p1 metadataObj
             imageSizes images Hres Hempty).
    apply primaryOf_no_match. rewrite Hnan.
    apply Forall_forall. intros x _. by destruct x.
Qed.

End Primary.

(** *** The parts of the descriptor *)

Lemma Math_round_near (q : Q) :
  ∃ z, Math_round (Fin q) = num z
       ∧ (q - (1 # 2) < inject_Z z)%Q ∧ (inject_Z z <= q + (1 # 2))%Q.
Proof.
  exists (Qfloor (q + (1 # 2))). split; [done|].
  pose proof (Qfloor_le (q + (1 # 2))) as Hle.
  pose proof (Qlt_floor (q + (1 # 2))) as Hlt.
  rewrite inject_Z_plus in Hlt. change (inject_Z 1) with 1%Q in Hlt.
  split; [lra|done].
Qed.

Lemma num_div_one_not_NaN (x : number) :
  truthy x = true → num_div (num 1) x ≠ NaN.
Proof.
  destruct x as [q| | |]; simpl; try done.
  intros Hq. apply negb_true_iff in Hq. rewrite Hq.
  apply binary64_not_NaN.
Qed.

Lemma num_div_finite_not_NaN (q : Q) (x : number) :
  truthy x = true → num_div (Fin q) x ≠ NaN.
Proof.
  destruct x as [r| | |]; simpl; try done.
  intros Hr. apply negb_true_iff in Hr. rewrite Hr.
  apply binary64_not_NaN.
Qed.

Section Descriptor.

Context (I : Imports).

Ltac run_async :=
  unfold mbind, Async_bind, mret, Async_ret, call, member, throw in *;
  simpl in *.

(** X15.  The planned dimensions are whole numbers.  For a finite
    target width and a finite aspect ratio other than zero, the
    transform is built from a whole width within half a pixel of the
    target.  Its height is an infinity when the quotient of that width
    by the aspect ratio overflows, and otherwise a whole number within
    half a pixel of that quotient as the division yields it. *)
Theorem planned_dimensions_are_whole
    (args : ISharpGatsbyImageArgs) (imageSizes : ImageSizes)
    (toFormat : string) (i : nat) (q r : Q) :
  sizes imageSizes !! i = Some (Fin q) →
  aspectRatio imageSizes = Fin r →
  ¬ (r == 0)%Q →
  ∃ a zw,
    transforms I args imageSizes toFormat !! i
    = Some (createTransformObject I a)
    ∧ args_width a = Some (num zw)
    ∧ (q - (1 # 2) < inject_Z zw)%Q ∧ (inject_Z zw <= q + (1 # 2))%Q
    ∧ (args_height a = Some PosInf ∧ num_div (num zw) (Fin r) = PosInf
       ∨ args_height a = Some NegInf ∧ num_div (num zw) (Fin r) = NegInf
       ∨ ∃ zh v,
           num_div (num zw) (Fin r) = Fin v
           ∧ args_height a = Some (num zh)
           ∧ (v - (1 # 2) < inject_Z zh)%Q
           ∧ (inject_Z zh <= v + (1 # 2))%Q).
Proof.
  intros Hi Har Hr. unfold transforms.
  rewrite (lookup_map _ _ i (Fin q) Hi), Har.
  destruct (Math_round_near q) as (zw & -> & Hw1 & Hw2).
  assert (Hdiv : num_div (num zw) (Fin r) = binary64 (inject_Z zw / r)).
  { unfold num, num_div. by rewrite (Qeq_bool_false _ _ Hr). }
  pose proof (binary64_not_NaN (inject_Z zw / r)) as Hnan.
  rewrite <- Hdiv in Hnan. clear Hdiv.
  remember (num_div (num zw) (Fin r)) as hq eqn:Hq.
  exists (transformArgs args (num zw) (Math_round hq) toFormat), zw.
  split; [done|]. split; [done|]. split; [done|]. split; [done|].
  destruct hq as [v| | |]; [|done|by left|right; by left].
  right; right.
  destruct (Math_round_near v) as (zh & Hzh & Hh1 & Hh2).
  exists zh, v. split; [done|]. split; [|done]. simpl.
  by rewrite <- Hzh.
Qed.


(** X16.  The image sources of a returned descriptor.  [fallback.srcSet] is
    the source set of the resized images and [fallback.sizes] is
    [args.sizes] when that is a non-empty string, else the [sizes]
    computed from the presentation width.  Without [args.webP] there
    is no further source; with it there is exactly one, of type
    [image/webp], holding the source set of the images resized from the
    plan with [toFormat] forced to [webp], and the same [sizes] as the
    fallback. *)
Theorem descriptor_sources
    (file : FileNode) (args : ISharpGatsbyImageArgs) (p p' : Process)
    (d : ISharpGatsbyImageData) :
  generateImageData I file args p = (Return (Some d), p') →
  ∃ metadataObj imageSizes images,
    Resized I file args p metadataObj p' imageSizes images
    ∧ out_layout d = default LFixed (args_layout args)
    ∧ fb_srcSet (fallback (out_images d)) = getSrcSet I images
    ∧ fb_sizes (fallback (out_images d))
      = (if truthy_ostr (args_sizes args) then default "" (args_sizes args)
         else getSizes I (presentationWidth imageSizes))
    ∧ if args_webP args then
        ∃ webpImages,
          batchQueueImageResizing I file (transforms I args imageSizes "webp")
          = Return webpImages
          ∧ sources (out_images d)
            = [ {| source_srcSet := getSrcSet I webpImages;
                   source_type := "image/webp";
                   source_sizes := fb_sizes (fallback (out_images d)) |} ]
      else sources (out_images d) = [].
Proof.
  intros Hrun. unfold generateImageData in Hrun. run_async.
  destruct (getImageMetadata I file _ p) as [[metadataObj|e] p1] eqn:Hmd;
    [|done].
  destruct (calculateImageSizes I file _ args (val metadataObj))
    as [imageSizes|e] eqn:Hsz; [|done].
  destruct (batchQueueImageResizing I file _) as [images|e] eqn:Himg;
    [|done].
  case_bool_decide as Hlen; [done|].
  destruct (primaryOf imageSizes images) as [primaryImage|] eqn:Hprim;
    [|done].
  run_async.
  exists metadataObj, imageSizes, images.
  destruct (layoutDimensions _ args primaryImage _) as [width height].
  destruct (args_webP args);
    [destruct (batchQueueImageResizing I file (transforms I args _ "webp"));
       [|done]|];
    (destruct (default PDominantColor (args_placeholder args)) eqn:Hp;
     [destruct (traceSVG I file _ args); [|done]
     |destruct (truthy_ostr (md_dominantColor (val metadataObj)))
     |destruct (base64 I file _); [|done]
     |destruct (truthy_ostr (md_dominantColor (val metadataObj)))]);
    simplify_eq; simpl; unfold Resized; rewrite ?Hp; repeat split; eauto.
Qed.

(** X17.  Dimensions that cannot go wrong.  In a returned descriptor under
    the constrained layout, [width] is a number that is neither [0] nor
    [NaN], and when it is finite the [height] is not [NaN]; under the
    fluid layout the [height] is a number other than [NaN].  The
    default of [1] for the aspect ratio keeps the divisions from
    dividing by zero. *)
Theorem constrained_and_fluid_dimensions_defined
    (file : FileNode) (args : ISharpGatsbyImageArgs) (p p' : Process)
    (d : ISharpGatsbyImageData) :
  generateImageData I file args p = (Return (Some d), p') →
  match default LFixed (args_layout args) with
  | LFixed => True
  | LFluid => ∃ h, out_height d = Some h ∧ h ≠ NaN
  | LConstrained =>
      ∃ w, out_width d = Some w ∧ truthy w = true
           ∧ ∀ q, w = Fin q → ∃ h, out_height d = Some h ∧ h ≠ NaN
  end.
Proof.
  intros Hrun.
  destruct (generateImageData_inv I file args p p' d Hrun)
    as (metadataObj & imageSizes & images & primaryImage
        & _ & _ & _ & _ & Hdim & _).
  assert (Har : ∃ ar, or_num (img_aspectRatio primaryImage) (Some (num 1))
                      = Some ar ∧ truthy ar = true).
  { pose proof (truthy_or_one (img_aspectRatio primaryImage)) as Ht.
    destruct (or_num _ _) as [ar|]; [eauto|done]. }
  destruct Har as (ar & Har & Hart). rewrite Har in Hdim.
  unfold layoutDimensions in Hdim.
  destruct (default LFixed (args_layout args)); [done| |]; simplify_eq.
  - eexists. split; [done|]. by apply num_div_one_not_NaN.
  - set (width := or_num (args_maxWidth args) _) in *.
    assert (Hw : truthy_opt width = true).
    { unfold width, or_num at 1.
      destruct (truthy_opt (args_maxWidth args)) eqn:E; [done|].
      apply truthy_or_one. }
    destruct width as [w|] eqn:Ew; [|done].
    exists w. split; [done|]. split; [done|].
    intros q ->. eexists. split; [done|].
    unfold or_num. rewrite Hw. simpl.
    by apply num_div_finite_not_NaN.
Qed.

End Descriptor.

(** * The further properties at work on concrete inputs *)

Lemma after_first_reachable (env : option string) :
  reachable (Demo.imports Demo.exact_width) (Demo.after_first env).
Proof.
  exact (reachable_step _ (start env) _ (reachable_start _ env)
           (step_getImageMetadata _ Demo.file (Some true) (start env))).
Defined.

(** A fixed 200x100 box: the 400x100 bounding box makes no
    difference. *)
Lemma aspect_ratio_ignores_other_layout_witness :
  let a := Demo.with_layout LFixed PNone (Some (num 200)) (Some (num 100))
             (Some (num 400)) (Some (num 100)) None in
  let b := Demo.with_layout LFixed PNone (Some (num 200)) (Some (num 100))
             None None None in
  args_layout a = args_layout b ∧ args_fit a = args_fit b
  ∧ getOutputAspectRatio a Demo.square = getOutputAspectRatio b Demo.square
  ∧ getOutputAspectRatio b Demo.square = num 2.
Proof.
  intros a b. split; [reflexivity|]. split; [reflexivity|].
  split; [|reflexivity].
  exact (proj1 (aspect_ratio_ignores_other_layout a b Demo.square
                  eq_refl eq_refl) eq_refl eq_refl eq_refl).
Defined.

(** A width of 0 under the fixed layout: the source ratio 4/3, as if
    no width were given. *)
Lemma falsy_dimension_is_absent_witness :
  drop_falsy (args_width Lab.zero_box) = drop_falsy (args_width Lab.open_box)
  ∧ getOutputAspectRatio Lab.zero_box (val Demo.resolved)
    = getOutputAspectRatio Lab.open_box (val Demo.resolved)
  ∧ getOutputAspectRatio Lab.open_box (val Demo.resolved)
    = Fin (6004799503160661 # 4503599627370496).
Proof.
  split; [reflexivity|]. split; [|reflexivity].
  exact (falsy_dimension_is_absent Lab.zero_box Lab.open_box
           (val Demo.resolved) eq_refl eq_refl eq_refl eq_refl eq_refl
           eq_refl).
Defined.

Lemma aspect_ratio_never_NaN_witness :
  finite_nonneg (args_width Lab.zero_box)
  ∧ finite_nonneg (args_maxWidth Lab.zero_box)
  ∧ (getOutputAspectRatio Lab.zero_box (val Demo.resolved) = PosInf
     ∨ ∃ q, getOutputAspectRatio Lab.zero_box (val Demo.resolved) = Fin q
            ∧ (0 <= q)%Q).
Proof.
  split; [discriminate|]. split; [discriminate|].
  apply (aspect_ratio_never_NaN Lab.zero_box (val Demo.resolved) 800 600);
    (reflexivity || discriminate).
Defined.

(** An unreadable file: the call rejects, nothing is cached, the
    statistics are not asked for. *)
Lemma failed_probe_caches_nothing_witness :
  let I := Lab.imports Demo.exact_width true false false 10 in
  let r := getImageMetadata I Demo.file (Some true) (start None) in
  (metadataCache (start None) !! contentDigest Demo.file = None
   ∨ NODE_ENV (start None) = Some "test")
  ∧ pipeline_metadata I Demo.file = Throw Lab.unsupported
  ∧ r.1 = Throw Lab.unsupported
  ∧ metadataCache r.2 = ∅
  ∧ probes_added (start None) r.2 [EvMetadata Demo.file].
Proof.
  intros I r. split; [left; reflexivity|]. split; [reflexivity|].
  exact (proj1 (failed_probe_caches_nothing I Demo.file (start None)
                  Lab.unsupported (or_introl eq_refl)) eq_refl).
Defined.

(** Two files resolved one after the other: objects 0 and 1. *)
Lemma cached_objects_are_distinct_witness :
  let I := Demo.imports Demo.exact_width in
  let p := (getImageMetadata I Lab.other_file (Some true)
              (Demo.after_first None)).2 in
  let m2 := {| oid := 1; val := val Demo.resolved |} in
  reachable I p
  ∧ metadataCache p !! "d41d8cd9" = Some Demo.resolved
  ∧ metadataCache p !! "e99a18c4" = Some m2
  ∧ "d41d8cd9" ≠ "e99a18c4"
  ∧ oid Demo.resolved ≠ oid m2.
Proof.
  intros I p m2.
  assert (Hreach : reachable I p).
  { exact (reachable_step I _ _ (after_first_reachable None)
             (step_getImageMetadata I Lab.other_file (Some true)
                (Demo.after_first None))). }
  split; [exact Hreach|]. split; [reflexivity|]. split; [reflexivity|].
  split; [discriminate|].
  apply (cached_objects_are_distinct I p "d41d8cd9" "e99a18c4"
           Demo.resolved m2 Hreach); [reflexivity|reflexivity|discriminate].
Defined.

(** In test mode the second resolution builds object 1 and puts it in
    place of object 0. *)
Lemma test_mode_replaces_cached_record_witness :
  let I := Demo.imports Demo.exact_width in
  let p := Demo.after_first (Some "test") in
  let m := {| oid := 1; val := val Demo.resolved |} in
  let p' :=
    {| metadataCache := {[ "d41d8cd9" := m ]};
       NODE_ENV := Some "test"; next_oid := 2;
       probes := [EvMetadata Demo.file; EvStats Demo.file;
                  EvMetadata Demo.file; EvStats Demo.file] |} in
  reachable I p
  ∧ NODE_ENV p = Some "test"
  ∧ metadataCache p !! contentDigest Demo.file = Some Demo.resolved
  ∧ getImageMetadata I Demo.file (Some true) p = (Return m, p')
  ∧ oid m ≠ oid Demo.resolved
  ∧ metadataCache p' !! contentDigest Demo.file = Some m.
Proof.
  intros I p m p'.
  split; [apply after_first_reachable|]. split; [reflexivity|].
  split; [reflexivity|]. split; [reflexivity|].
  destruct (test_mode_replaces_cached_record I Demo.file p p' Demo.resolved
              m (after_first_reachable (Some "test")) eq_refl eq_refl
              eq_refl) as (Hnew & Hstored & _).
  split; [exact Hnew | exact Hstored].
Defined.

Lemma cached_call_leaves_process_witness :
  let I := Demo.imports Demo.exact_width in
  default PDominantColor (args_placeholder Demo.no_args) = PDominantColor
  ∧ metadataCache (Demo.after_first None) !! contentDigest Demo.file
    = Some Demo.resolved
  ∧ NODE_ENV (Demo.after_first None) ≠ Some "test"
  ∧ (generateImageData I Demo.file Demo.no_args (Demo.after_first None)).2
    = Demo.after_first None.
Proof.
  intros I. split; [reflexivity|]. split; [reflexivity|].
  split; [discriminate|].
  apply (cached_call_leaves_process I Demo.file Demo.no_args
           (Demo.after_first None) Demo.resolved);
    [reflexivity | reflexivity | discriminate].
Defined.

(** A tracer that rejects: the call rejects with the tracer's error
    although the images were resized. *)
Lemma thrown_error_origin_witness :
  let I := Lab.imports Demo.exact_width false false true 10 in
  let args := Lab.webp_args PTracedSVG in
  let p' :=
    {| metadataCache := ∅; NODE_ENV := None; next_oid := 1;
       probes := [EvImageSize Demo.file] |} in
  generateImageData I Demo.file args (start None)
  = (Throw Lab.unsupported, p')
  ∧ traceSVG I Demo.file [] args = Throw Lab.unsupported
  ∧ Lab.unsupported ≠ TypeError "Cannot read properties of undefined".
Proof.
  intros I args p'.
  assert (Hrun : generateImageData I Demo.file args (start None)
                 = (Throw Lab.unsupported, p')) by reflexivity.
  split; [exact Hrun|]. split; [|discriminate].
  destruct (thrown_error_origin I Demo.file args (start None) p'
              Lab.unsupported Hrun)
    as [H | (mo & _ & [H | (sz & _ & [H | (images & _ & _
          & [[_ H] | [[_ H] | [[H _] | [_ H]]]])])])];
    [discriminate H.. | exact H].
Defined.

(** Three target widths, the second being the presentation width, and
    a resize that hands back one image only. *)
Lemma short_image_array_throws_witness :
  let I := Lab.imports Lab.repeated_width false false false 1 in
  let images :=
    [ {| img_src := "/static/image";
         img_width := Some (num 150); img_height := Some (num 100);
         img_aspectRatio := Some (Fin (3 # 2)); img_format := "png" |} ] in
  Resized I Demo.file Demo.no_args (start None) Demo.resolved
    (Demo.after_first None) Lab.repeated_width images
  ∧ sizes Lab.repeated_width !! 1%nat = Some (num 300)
  ∧ (length images ≤ 1)%nat
  ∧ generateImageData I Demo.file Demo.no_args (start None)
    = (Throw (TypeError "Cannot read properties of undefined"),
       Demo.after_first None).
Proof.
  intros I images.
  assert (Hres : Resized I Demo.file Demo.no_args (start None) Demo.resolved
                   (Demo.after_first None) Lab.repeated_width images).
  { repeat split; reflexivity. }
  split; [exact Hres|]. split; [reflexivity|]. split; [simpl; lia|].
  apply (short_image_array_throws I Demo.file Demo.no_args (start None)
           (Demo.after_first None) Demo.resolved Lab.repeated_width images
           1%nat (num 300) Hres);
    [discriminate | reflexivity | reflexivity | | simpl; lia].
  intros [|j] w' Hj Hw'; [|lia]. simpl in Hw'. by simplify_eq.
Defined.

(** With the width 300 planned twice, the primary image is the one at
    index 1, the first of the two. *)
Lemma primary_is_first_exact_match_witness :
  let I := Demo.imports Lab.repeated_width in
  let d :=
    {| out_layout := LFixed;
       out_width := Some (num 300);
       out_height := Some (num 200);
       out_backgroundColor := Some "#ff8000";
       out_placeholder := None;
       out_images :=
         {| fallback :=
              {| fb_src := "/static/image";
                 fb_srcSet := "/static/image,/static/image,/static/image";
                 fb_sizes := "100vw" |};
            sources := [] |} |} in
  generateImageData I Demo.file Demo.no_args (start None)
  = (Return (Some d), Demo.after_first None)
  ∧ ∃ metadataObj imageSizes images i w primaryImage,
      Resized I Demo.file Demo.no_args (start None) metadataObj
        (Demo.after_first None) imageSizes images
      ∧ sizes imageSizes !! i = Some w
      ∧ strict_eq w (presentationWidth imageSizes) = true
      ∧ (∀ j w', j < i → sizes imageSizes !! j = Some w' →
                 strict_eq w' (presentationWidth imageSizes) = false)
      ∧ images !! i = Some primaryImage
      ∧ fb_src (fallback (out_images d)) = img_src primaryImage.
Proof.
  intros I d. split; [reflexivity|].
  exact (primary_is_first_exact_match I Demo.file Demo.no_args (start None)
           (Demo.after_first None) d eq_refl).
Defined.

Lemma nan_presentation_width_no_descriptor_witness :
  let I := Demo.imports Lab.nan_width in
  let images :=
    map Demo.encode (transforms I Demo.no_args Lab.nan_width "png") in
  Resized I Demo.file Demo.no_args (start None) Demo.resolved
    (Demo.after_first None) Lab.nan_width images
  ∧ presentationWidth Lab.nan_width = NaN
  ∧ generateImageData I Demo.file Demo.no_args (start None)
    = (Throw (TypeError "Cannot read properties of undefined"),
       Demo.after_first None).
Proof.
  intros I images.
  assert (Hres : Resized I Demo.file Demo.no_args (start None) Demo.resolved
                   (Demo.after_first None) Lab.nan_width images).
  { repeat split; reflexivity. }
  split; [exact Hres|]. split; [reflexivity|].
  exact (nan_presentation_width_no_descriptor I Demo.file Demo.no_args
           (start None) (Demo.after_first None) Demo.resolved Lab.nan_width
           images Hres eq_refl).
Defined.

(** The second target width, 200.6, at aspect ratio 2: 201 wide, and a
    whole height within half a pixel of 100.5. *)
Lemma planned_dimensions_are_whole_witness :
  let I := Demo.imports Demo.fractional_widths in
  sizes Demo.fractional_widths !! 1%nat = Some (Fin (1003 # 5))
  ∧ aspectRatio Demo.fractional_widths = Fin 2
  ∧ ¬ (2 == 0)%Q
  ∧ ∃ a zw,
      transforms I Demo.no_args Demo.fractional_widths "png" !! 1%nat
      = Some (createTransformObject I a)
      ∧ args_width a = Some (num zw)
      ∧ ((1003 # 5) - (1 # 2) < inject_Z zw)%Q
      ∧ (inject_Z zw <= (1003 # 5) + (1 # 2))%Q
      ∧ (args_height a = Some PosInf ∧ num_div (num zw) (Fin 2) = PosInf
         ∨ args_height a = Some NegInf ∧ num_div (num zw) (Fin 2) = NegInf
         ∨ ∃ zh v,
             num_div (num zw) (Fin 2) = Fin v
             ∧ args_height a = Some (num zh)
             ∧ (v - (1 # 2) < inject_Z zh)%Q
             ∧ (inject_Z zh <= v + (1 # 2))%Q).
Proof.
  intros I. split; [reflexivity|]. split; [reflexivity|].
  split; [discriminate|].
  apply (planned_dimensions_are_whole I Demo.no_args
           Demo.fractional_widths "png" 1%nat (1003 # 5) 2);
    [reflexivity | reflexivity | discriminate].
Defined.

(** A fluid request with [webP], [toFormat: jpg], its own [sizes] and
    the blurred placeholder, shared by the two lemmas below. *)
Lemma descriptor_sources_witness :
  let I := Demo.imports Demo.exact_width in
  let args := Lab.webp_args PBlurred in
  let d :=
    {| out_layout := LFluid;
       out_width := Some (num 1);
       out_height := Some (Fin (6004799503160661 # 9007199254740992));
       out_backgroundColor := None;
       out_placeholder :=
         Some {| ph_fallback := "data:image/png;base64,AAAA" |};
       out_images :=
         {| fallback :=
              {| fb_src := "/static/image";
                 fb_srcSet := "/static/image";
                 fb_sizes := "(max-width: 300px) 100vw, 300px" |};
            sources :=
              [ {| source_srcSet := "/static/image";
                   source_type := "image/webp";
                   source_sizes := "(max-width: 300px) 100vw, 300px" |} ]
         |} |} in
  let p' :=
    {| metadataCache := ∅; NODE_ENV := None; next_oid := 1;
       probes := [EvImageSize Demo.file] |} in
  generateImageData I Demo.file args (start None) = (Return (Some d), p')
  ∧ ∃ metadataObj imageSizes images,
      Resized I Demo.file args (start None) metadataObj p' imageSizes images
      ∧ out_layout d = LFluid
      ∧ fb_srcSet (fallback (out_images d)) = getSrcSet I images
      ∧ fb_sizes (fallback (out_images d))
        = "(max-width: 300px) 100vw, 300px"
      ∧ ∃ webpImages,
          batchQueueImageResizing I Demo.file
            (transforms I args imageSizes "webp")
          = Return webpImages
          ∧ sources (out_images d)
            = [ {| source_srcSet := getSrcSet I webpImages;
                   source_type := "image/webp";
                   source_sizes := fb_sizes (fallback (out_images d)) |} ].
Proof.
  intros I args d p'. split; [reflexivity|].
  exact (descriptor_sources I Demo.file args (start None) p' d eq_refl).
Defined.

Lemma constrained_and_fluid_dimensions_defined_witness :
  let I := Demo.imports Demo.exact_width in
  let args := Lab.webp_args PNone in
  ∃ d p',
    generateImageData I Demo.file args (start None) = (Return (Some d), p')
    ∧ out_height d = Some (Fin (6004799503160661 # 9007199254740992))
    ∧ ∃ h, out_height d = Some h ∧ h ≠ NaN.
Proof.
  intros I args. eexists _, _.
  split; [reflexivity|]. split; [reflexivity|].
  exact (constrained_and_fluid_dimensions_defined I Demo.file args
           (start None) _ _ eq_refl).
Defined.

(** ** When a descriptor is returned *)

Section Progress.

Context (I : Imports).

Ltac run_async :=
  unfold mbind, Async_bind, mret, Async_ret, call, member, throw in *;
  simpl in *.

(** X18.  A descriptor is returned as soon as nothing fails: the primary
    format is resized, a primary image is found, and those of the
    optional steps that are asked for (the webp resize, the blurred
    placeholder, the traced placeholder) succeed.  The process is left
    as the metadata resolution left it. *)
Theorem descriptor_returned_when_nothing_fails
    (file : FileNode) (args : ISharpGatsbyImageArgs) (p p1 : Process)
    (metadataObj : Obj IImageMetadata) (imageSizes : ImageSizes)
    (images : list EncodedImage) (primaryImage : EncodedImage) :
  Resized I file args p metadataObj p1 imageSizes images →
  primaryOf imageSizes images = Some primaryImage →
  (args_webP args = true →
   ∃ webpImages,
     batchQueueImageResizing I file (transforms I args imageSizes "webp")
     = Return webpImages) →
  (default PDominantColor (args_placeholder args) = PBlurred →
   ∃ src, base64 I file (base64Args args) = Return src) →
  (default PDominantColor (args_placeholder args) = PTracedSVG →
   ∃ svg, traceSVG I file (default [] (args_tracedSVGOptions args)) args
          = Return svg) →
  ∃ d, generateImageData I file args p = (Return (Some d), p1).
Proof.
  intros (Hmd & Hsz & Himg) Hprim Hwebp Hblur Htrace.
  assert (Hne : images ≠ []).
  { intros ->. unfold primaryOf, array_get in Hprim.
    by destruct (_ <? _)%Z. }
  unfold generateImageData. run_async. rewrite Hmd, Hsz, Himg, Hprim.
  rewrite bool_decide_eq_false_2 by (by destruct images).
  run_async.
  destruct (layoutDimensions _ args primaryImage _) as [width height].
  destruct (args_webP args);
    [destruct Hwebp as [webpImages ->]; [done|]|];
    (destruct (default PDominantColor (args_placeholder args));
     [destruct Htrace as [svg ->]; [done|]
     |destruct (truthy_ostr (md_dominantColor (val metadataObj)))
     |destruct Hblur as [src ->]; [done|]
     |destruct (truthy_ostr (md_dominantColor (val metadataObj)))]);
    by eexists.
Qed.

End Progress.

Lemma descriptor_returned_when_nothing_fails_witness :
  let I := Demo.imports Demo.exact_width in
  let args := Lab.webp_args PTracedSVG in
  let metadataObj :=
    {| oid := 0;
       val := {| md_width := num 800; md_height := num 600;
                 md_format := "png"; md_density := None;
                 md_dominantColor := None |} |} in
  let p1 :=
    {| metadataCache := ∅; NODE_ENV := None; next_oid := 1;
       probes := [EvImageSize Demo.file] |} in
  let primaryImage :=
    {| img_src := "/static/image";
       img_width := Some (num 300); img_height := Some (num 200);
       img_aspectRatio := Some (Fin (3 # 2)); img_format := "jpg" |} in
  Resized I Demo.file args (start None) metadataObj p1 Demo.exact_width
    [primaryImage]
  ∧ primaryOf Demo.exact_width [primaryImage] = Some primaryImage
  ∧ ∃ d, generateImageData I Demo.file args (start None)
         = (Return (Some d), p1).
Proof.
  intros I args metadataObj p1 primaryImage.
  assert (Hres : Resized I Demo.file args (start None) metadataObj p1
                   Demo.exact_width [primaryImage]).
  { repeat split; reflexivity. }
  split; [exact Hres|]. split; [reflexivity|].
  apply (descriptor_returned_when_nothing_fails I Demo.file args
           (start None) p1 metadataObj Demo.exact_width [primaryImage]
           primaryImage Hres eq_refl).
  - intros _. by eexists.
  - discriminate.
  - intros _. by eexists.
Defined.
